(** * Sandboxer: container lifecycle and network-policy orchestration

    A shallow embedding of [src/sandboxer/container.py] and of the [run]
    command of [src/sandboxer/cli.py].  Python [str] values are modelled as
    lists of (byte-sized) characters, so that slicing, [split] and [strip]
    read like their list counterparts. *)

From Stdlib Require Import Strings.String Strings.Ascii List ZArith Bool Lia.
Import ListNotations.
Open Scope Z_scope.

(** ** Python strings *)
Module PyStr.

Definition pystr := list ascii.

(** A Rocq string literal as a Python string. *)
Definition lit (s : string) : pystr := list_ascii_of_string s.

Definition newline : ascii := "010"%char.

(** [a.startswith(p)] *)
Fixpoint startswith (s p : pystr) : bool :=
  match p, s with
  | [], _ => true
  | c :: p', d :: s' => Ascii.eqb c d && startswith s' p'
  | _ :: _, [] => false
  end.

(** [a.endswith(p)] *)
Definition endswith (s p : pystr) : bool := startswith (rev s) (rev p).

(** [p in s] for strings: substring test. *)
Fixpoint contains (s p : pystr) : bool :=
  startswith s p ||
  match s with
  | [] => false
  | _ :: s' => contains s' p
  end.

(** [s.lower()] on ASCII letters. *)
Definition lower_char (c : ascii) : ascii :=
  let n := nat_of_ascii c in
  if (65 <=? n)%nat && (n <=? 90)%nat then ascii_of_nat (n + 32) else c.
Definition lower (s : pystr) : pystr := map lower_char s.

(** [s.split(c)] for a one-character separator: never empty, and
    [""].split(c) is [[""]]. *)
Fixpoint split_on (c : ascii) (s : pystr) : list pystr :=
  match s with
  | [] => [[]]
  | x :: r =>
      if Ascii.eqb x c then [] :: split_on c r
      else match split_on c r with
           | [] => [[x]]
           | y :: ys => (x :: y) :: ys
           end
  end.

(** [s.split(c, 1)]: one or two parts. *)
Fixpoint split_once (c : ascii) (s : pystr) : list pystr :=
  match s with
  | [] => [[]]
  | x :: r =>
      if Ascii.eqb x c then [[]; r]
      else match split_once c r with
           | [] => [[x]]
           | y :: ys => (x :: y) :: ys
           end
  end.

(** [sep.join(xs)] *)
Fixpoint join (sep : ascii) (xs : list pystr) : pystr :=
  match xs with
  | [] => []
  | [x] => x
  | x :: xs' => x ++ sep :: join sep xs'
  end.

(** [c.isspace()] for the characters of the byte range:
    [\t \n \x0b \x0c \r], [\x1c]..[\x1f] and the space. *)
Definition isspace (c : ascii) : bool :=
  let n := nat_of_ascii c in
  ((9 <=? n)%nat && (n <=? 13)%nat) || ((28 <=? n)%nat && (n <=? 32)%nat).

Fixpoint lstrip (s : pystr) : pystr :=
  match s with
  | [] => []
  | c :: s' => if isspace c then lstrip s' else s
  end.

Definition rstrip (s : pystr) : pystr := rev (lstrip (rev s)).

(** [s.strip()] *)
Definition strip (s : pystr) : pystr := rstrip (lstrip s).

(** [s[:n]] *)
Definition take (n : nat) (s : pystr) : pystr := firstn n s.

(** [s[i:-1]] *)
Definition slice_to_last (i : nat) (s : pystr) : pystr :=
  firstn (length s - 1 - i) (skipn i s).

Fixpoint pystr_eqb (a b : pystr) : bool :=
  match a, b with
  | [], [] => true
  | x :: a', y :: b' => Ascii.eqb x y && pystr_eqb a' b'
  | _, _ => false
  end.

End PyStr.
Import PyStr.

(** ** hashlib.sha256

    The FIPS 180-4 SHA-256 compression over 32-bit words held in [Z], with
    the wrap-around written out as a mask. *)
Module Sha256.

Definition mask32 : Z := 4294967295.
Definition add32 (a b : Z) : Z := Z.land (a + b) mask32.
Definition rotr (x : Z) (n : Z) : Z :=
  Z.lor (Z.shiftr x n) (Z.land (Z.shiftl x (32 - n)) mask32).

Definition ch (e f g : Z) : Z :=
  Z.lxor (Z.land e f) (Z.land (Z.lxor e mask32) g).
Definition maj (a b c : Z) : Z :=
  Z.lxor (Z.lxor (Z.land a b) (Z.land a c)) (Z.land b c).
Definition bsig0 (x : Z) : Z := Z.lxor (Z.lxor (rotr x 2) (rotr x 13)) (rotr x 22).
Definition bsig1 (x : Z) : Z := Z.lxor (Z.lxor (rotr x 6) (rotr x 11)) (rotr x 25).
Definition ssig0 (x : Z) : Z := Z.lxor (Z.lxor (rotr x 7) (rotr x 18)) (Z.shiftr x 3).
Definition ssig1 (x : Z) : Z := Z.lxor (Z.lxor (rotr x 17) (rotr x 19)) (Z.shiftr x 10).

Definition K : list Z :=
  [1116352408; 1899447441; 3049323471; 3921009573; 961987163; 1508970993;
   2453635748; 2870763221; 3624381080; 310598401; 607225278; 1426881987;
   1925078388; 2162078206; 2614888103; 3248222580; 3835390401; 4022224774;
   264347078; 604807628; 770255983; 1249150122; 1555081692; 1996064986;
   2554220882; 2821834349; 2952996808; 3210313671; 3336571891; 3584528711;
   113926993; 338241895; 666307205; 773529912; 1294757372; 1396182291;
   1695183700; 1986661051; 2177026350; 2456956037; 2730485921; 2820302411;
   3259730800; 3345764771; 3516065817; 3600352804; 4094571909; 275423344;
   430227734; 506948616; 659060556; 883997877; 958139571; 1322822218;
   1537002063; 1747873779; 1955562222; 2024104815; 2227730452; 2361852424;
   2428436474; 2756734187; 3204031479; 3329325298].

Record hstate := mkH { ha : Z; hb : Z; hc : Z; hd : Z; he : Z; hf : Z; hg : Z; hh : Z }.

Definition H0 : hstate :=
  mkH 1779033703 3144134277 1013904242 2773480762
      1359893119 2600822924 528734635 1541459225.

(** Padding: a [1] bit, zeros, then the bit length as 64-bit big endian. *)
Definition be_bytes (n : nat) (x : Z) : list Z :=
  map (fun i => Z.land (Z.shiftr x (8 * Z.of_nat (n - 1 - i))) 255) (seq 0 n).

Definition pad (msg : list Z) : list Z :=
  let len := Z.of_nat (length msg) in
  msg ++ [128] ++ repeat 0 (Z.to_nat ((55 - len) mod 64)) ++ be_bytes 8 (8 * len).

Fixpoint words_of_bytes (fuel : nat) (bs : list Z) : list Z :=
  match fuel, bs with
  | S f, b0 :: b1 :: b2 :: b3 :: rest =>
      (b0 * 16777216 + b1 * 65536 + b2 * 256 + b3) :: words_of_bytes f rest
  | _, _ => []
  end.

(** Message schedule: [W] extended from 16 to 64 words (kept reversed). *)
Fixpoint schedule_rev (n : nat) (wrev : list Z) : list Z :=
  match n with
  | O => wrev
  | S n' =>
      let w t := nth t wrev 0 in
      let next := add32 (add32 (ssig1 (w 1%nat)) (w 6%nat))
                        (add32 (ssig0 (w 14%nat)) (w 15%nat)) in
      schedule_rev n' (next :: wrev)
  end.

Definition schedule (block : list Z) : list Z :=
  rev (schedule_rev 48 (rev block)).

Definition round (s : hstate) (kw : Z * Z) : hstate :=
  let '(k, w) := kw in
  let t1 := add32 (add32 (add32 (hh s) (bsig1 (he s)))
                         (add32 (ch (he s) (hf s) (hg s)) k)) w in
  let t2 := add32 (bsig0 (ha s)) (maj (ha s) (hb s) (hc s)) in
  mkH (add32 t1 t2) (ha s) (hb s) (hc s) (add32 (hd s) t1) (he s) (hf s) (hg s).

Definition compress (s : hstate) (block : list Z) : hstate :=
  let s' := fold_left round (combine K (schedule block)) s in
  mkH (add32 (ha s) (ha s')) (add32 (hb s) (hb s')) (add32 (hc s) (hc s'))
      (add32 (hd s) (hd s')) (add32 (he s) (he s')) (add32 (hf s) (hf s'))
      (add32 (hg s) (hg s')) (add32 (hh s) (hh s')).

Fixpoint blocks (fuel : nat) (ws : list Z) : list (list Z) :=
  match fuel with
  | O => []
  | S f =>
      match ws with
      | [] => []
      | _ => firstn 16 ws :: blocks f (skipn 16 ws)
      end
  end.

Definition sha256 (msg : list Z) : hstate :=
  let ws := words_of_bytes (length (pad msg)) (pad msg) in
  fold_left compress (blocks (length ws) ws) H0.

(** [.hexdigest()]: lower-case hex, eight characters per word. *)
Definition hexdigits : pystr := lit "0123456789abcdef".
Definition hexchar (n : Z) : ascii := nth (Z.to_nat n) hexdigits "0"%char.
Definition hex8 (w : Z) : pystr :=
  map (fun i => hexchar (Z.land (Z.shiftr w (4 * Z.of_nat (7 - i))) 15)) (seq 0 8).

Definition hexdigest (s : hstate) : pystr :=
  hex8 (ha s) ++ hex8 (hb s) ++ hex8 (hc s) ++ hex8 (hd s) ++
  hex8 (he s) ++ hex8 (hf s) ++ hex8 (hg s) ++ hex8 (hh s).

Definition is_hex (c : ascii) : bool := existsb (Ascii.eqb c) hexdigits.

End Sha256.

(** ** Naming (container.py, generate_container_name) *)

(** [str.encode()]: the characters are already the UTF-8 bytes. *)
Definition encode (s : pystr) : list Z := map (fun c => Z.of_nat (nat_of_ascii c)) s.

(** [Path.name] of a resolved absolute path: the last [/]-component. *)
Definition path_name (p : pystr) : pystr := last (split_on "/"%char p) [].

Definition generate_container_name (folder_path : pystr) : pystr :=
  let folder_name := path_name folder_path in
  let path_hash := take 8 (Sha256.hexdigest (Sha256.sha256 (encode folder_path))) in
  lit "sandboxer-" ++ folder_name ++ lit "-" ++ path_hash.

Example sha256_empty :
  Sha256.hexdigest (Sha256.sha256 []) =
  lit "e3b0c44298fc1c149afbf4c8996fb92427ae41e4649b934ca495991b7852b855".
Proof. vm_compute. reflexivity. Qed.

Example sha256_long :
  Sha256.hexdigest (Sha256.sha256 (repeat 97 100)) =
  lit "2816597888e4a0d3a36b82b83316ab32680eb8f00f8cd3b904d681246d285a0e".
Proof. vm_compute. reflexivity. Qed.

Example name_tmp_proj :
  generate_container_name (lit "/tmp/proj") = lit "sandboxer-proj-29ccbcbc".
Proof. vm_compute. reflexivity. Qed.

(** ** Container and the [ps] output parser (container.py, list_containers) *)

Definition DEFAULT_IMAGE : pystr := lit "docker.io/rdubwiley/sandboxer".
Definition MOUNT_TARGET : pystr := lit "/home/developer/project".
Definition LABEL_MANAGED : pystr := lit "com.sandboxer.managed".
Definition LABEL_MOUNTED_PATH : pystr := lit "com.sandboxer.mounted-path".

Record Container := mkContainer {
  id : pystr;
  name : pystr;
  status : pystr;
  mounted_path : pystr
}.

(** [for label in labels_content.split(" "): if label.startswith(...): ... break] *)
Fixpoint find_mounted_label (labels : list pystr) : pystr :=
  match labels with
  | [] => []
  | label :: rest =>
      if startswith label (LABEL_MOUNTED_PATH ++ [":"%char]) then
        match split_once ":"%char label with
        | _ :: v :: _ => v
        | _ => [] (* not reached: the [startswith] test puts a colon in [label] *)
        end
      else find_mounted_label rest
  end.

(** [mounted_path] from the labels field [map[key:value key2:value2 ...]]. *)
Definition mounted_path_of_labels (labels : pystr) : pystr :=
  if startswith labels (lit "map[") && endswith labels (lit "]") then
    let labels_content := slice_to_last 4 labels in
    find_mounted_label (split_on " "%char labels_content)
  else [].

(** The body of the [for line in ...] loop: [None] is a [continue]. *)
Definition parse_ps_line (line : pystr) : option Container :=
  match line with
  | [] => None
  | _ =>
      let parts := split_on "|"%char line in
      if (length parts <? 4)%nat then None
      else
        let container_id := nth 0 parts [] in
        let name := nth 1 parts [] in
        let status := nth 2 parts [] in
        let labels := nth 3 parts [] in
        Some (mkContainer (take 12 container_id) name status
                          (mounted_path_of_labels labels))
  end.

Fixpoint parse_ps_lines (lines : list pystr) : list Container :=
  match lines with
  | [] => []
  | line :: rest =>
      match parse_ps_line line with
      | Some c => c :: parse_ps_lines rest
      | None => parse_ps_lines rest
      end
  end.

(** [result.stdout.strip().split("\n")] and the loop. *)
Definition parse_ps_output (stdout : pystr) : list Container :=
  parse_ps_lines (split_on newline (strip stdout)).

Example parse_ps_output_ex :
  parse_ps_output
    (lit "0123456789abcdef|sandboxer-proj-29ccbcbc|Up 2 minutes|map[com.sandboxer.managed:true com.sandboxer.mounted-path:/tmp/proj]
bad|line
" )
  = [mkContainer (lit "0123456789ab") (lit "sandboxer-proj-29ccbcbc")
                 (lit "Up 2 minutes") (lit "/tmp/proj")].
Proof. vm_compute. reflexivity. Qed.

(** *** Well-formed [ps] output, as the engine prints it *)

(** [key:value] *)
Definition label_pair (kv : pystr * pystr) : pystr := fst kv ++ ":"%char :: snd kv.

(** The labels field [map[key:value key2:value2 ...]]. *)
Definition labels_blob (kvs : list (pystr * pystr)) : pystr :=
  lit "map[" ++ join " "%char (map label_pair kvs) ++ lit "]".

(** The value of the first [com.sandboxer.mounted-path] label, empty when
    there is none. *)
Fixpoint label_value (kvs : list (pystr * pystr)) : pystr :=
  match kvs with
  | [] => []
  | (k, v) :: rest => if pystr_eqb k LABEL_MOUNTED_PATH then v else label_value rest
  end.

(** One output line: [id|name|status|map[...]], the same with a labels field
    that is not of the [map[...]] form, or a line of fewer than four fields. *)
Inductive ps_row :=
| WellFormed (i n s : pystr) (kvs : list (pystr * pystr))
| RawLabels (i n s l : pystr)
| Malformed (l : pystr).

Definition row_text (r : ps_row) : pystr :=
  match r with
  | WellFormed i n s kvs => join "|"%char [i; n; s; labels_blob kvs]
  | RawLabels i n s l => join "|"%char [i; n; s; l]
  | Malformed l => l
  end.

Definition ps_text (rows : list ps_row) : pystr := join newline (map row_text rows).

(** [s] holds none of the characters [cs]. *)
Definition free_of (cs : list ascii) (s : pystr) : bool :=
  forallb (fun c => negb (existsb (Ascii.eqb c) cs)) s.

Definition map_form (l : pystr) : bool :=
  startswith l (lit "map[") && endswith l (lit "]").

Definition row_ok (r : ps_row) : bool :=
  match r with
  | WellFormed i n s kvs =>
      free_of ["|"%char; newline] i && free_of ["|"%char; newline] n &&
      free_of ["|"%char; newline] s &&
      forallb (fun kv => free_of [":"%char; " "%char; "|"%char; newline] (fst kv) &&
                         free_of [" "%char; "|"%char; newline] (snd kv)) kvs
  | RawLabels i n s l =>
      free_of ["|"%char; newline] i && free_of ["|"%char; newline] n &&
      free_of ["|"%char; newline] s && free_of ["|"%char; newline] l && negb (map_form l)
  | Malformed l => free_of [newline] l && (length (split_on "|"%char l) <? 4)%nat
  end.

(** The containers the rows stand for, in order. *)
Fixpoint expected_containers (rows : list ps_row) : list Container :=
  match rows with
  | [] => []
  | WellFormed i n s kvs :: rest =>
      mkContainer (take 12 i) n s (label_value kvs) :: expected_containers rest
  | RawLabels i n s _ :: rest => mkContainer (take 12 i) n s [] :: expected_containers rest
  | Malformed _ :: rest => expected_containers rest
  end.

(** ** Network policy generator (container.py) *)

Definition dq : ascii := "034"%char.

(** The text between the triple quotes of [_generate_dev_only_firewall_script],
    line by line; the literal opens and closes with a newline. *)
Definition dev_only_firewall_lines : list pystr :=
  [
   lit "# Allowed domains for dev mode";
   lit "ALLOWED_DOMAINS=" ++ [dq];
   lit "api.anthropic.com";
   lit "pypi.org";
   lit "files.pythonhosted.org";
   lit "registry.npmjs.org";
   lit "npmjs.com";
   lit "proxy.golang.org";
   lit "sum.golang.org";
   lit "storage.googleapis.com";
   lit "github.com";
   lit "api.github.com";
   lit "objects.githubusercontent.com";
   lit "raw.githubusercontent.com";
   lit "astral.sh";
   lit "bun.sh";
   [dq];
   [];
   lit "# Allow loopback";
   lit "sudo iptables -A OUTPUT -o lo -j ACCEPT";
   lit "sudo iptables -A INPUT -i lo -j ACCEPT";
   [];
   lit "# Allow established connections";
   lit "sudo iptables -A OUTPUT -m state --state ESTABLISHED,RELATED -j ACCEPT";
   [];
   lit "# Allow DNS (needed for ongoing resolution)";
   lit "sudo iptables -A OUTPUT -p udp --dport 53 -j ACCEPT";
   lit "sudo iptables -A OUTPUT -p tcp --dport 53 -j ACCEPT";
   [];
   lit "# Allow HTTPS to each allowed domain";
   lit "for domain in $ALLOWED_DOMAINS; do";
   lit "    DOMAIN_IPS=$(getent ahostsv4 $domain 2>/dev/null | awk '{print $1}' | sort -u)";
   lit "    for ip in $DOMAIN_IPS; do";
   lit "        sudo iptables -A OUTPUT -p tcp --dport 443 -d $ip -j ACCEPT";
   lit "    done";
   lit "done";
   [];
   lit "# Drop everything else";
   lit "sudo iptables -A OUTPUT -j DROP";
   [];
   lit "# Disable Claude web search by creating user settings";
   lit "mkdir -p ~/.claude";
   lit "cat > ~/.claude/settings.json << 'SETTINGS_EOF'";
   lit "{";
   lit "  " ++ [dq] ++ lit "permissions" ++ [dq] ++ lit ": {";
   lit "    " ++ [dq] ++ lit "deny" ++ [dq] ++ lit ": [" ++ [dq] ++ lit "WebSearch" ++ [dq] ++ lit ", " ++ [dq] ++ lit "WebFetch" ++ [dq] ++ lit "]";
   lit "  }";
   lit "}";
   lit "SETTINGS_EOF"].

Definition _generate_dev_only_firewall_script : pystr :=
  join newline ([] :: dev_only_firewall_lines ++ [[]]).

(** The text of [_generate_claude_only_firewall_script], line by line. *)
Definition claude_only_firewall_lines : list pystr :=
  [
   lit "# Resolve Claude API IPs (IPv4 only - filter out IPv6)";
   lit "CLAUDE_IPS=$(getent ahostsv4 api.anthropic.com | awk '{print $1}' | sort -u)";
   [];
   lit "# Allow loopback";
   lit "sudo iptables -A OUTPUT -o lo -j ACCEPT";
   lit "sudo iptables -A INPUT -i lo -j ACCEPT";
   [];
   lit "# Allow established connections";
   lit "sudo iptables -A OUTPUT -m state --state ESTABLISHED,RELATED -j ACCEPT";
   [];
   lit "# Allow DNS (needed for ongoing resolution)";
   lit "sudo iptables -A OUTPUT -p udp --dport 53 -j ACCEPT";
   lit "sudo iptables -A OUTPUT -p tcp --dport 53 -j ACCEPT";
   [];
   lit "# Allow HTTPS to Claude API IPs";
   lit "for ip in $CLAUDE_IPS; do";
   lit "    sudo iptables -A OUTPUT -p tcp --dport 443 -d $ip -j ACCEPT";
   lit "done";
   [];
   lit "# Drop everything else";
   lit "sudo iptables -A OUTPUT -j DROP";
   [];
   lit "# Disable Claude web search by creating user settings";
   lit "mkdir -p ~/.claude";
   lit "cat > ~/.claude/settings.json << 'SETTINGS_EOF'";
   lit "{";
   lit "  " ++ [dq] ++ lit "permissions" ++ [dq] ++ lit ": {";
   lit "    " ++ [dq] ++ lit "deny" ++ [dq] ++ lit ": [" ++ [dq] ++ lit "WebSearch" ++ [dq] ++ lit ", " ++ [dq] ++ lit "WebFetch" ++ [dq] ++ lit "]";
   lit "  }";
   lit "}";
   lit "SETTINGS_EOF"].

Definition _generate_claude_only_firewall_script : pystr :=
  join newline ([] :: claude_only_firewall_lines ++ [[]]).

Example dev_only_script_digest :
  take 8 (Sha256.hexdigest (Sha256.sha256 (encode _generate_dev_only_firewall_script)))
  = lit "70678044".
Proof. vm_compute. reflexivity. Qed.

Example claude_only_script_digest :
  take 8 (Sha256.hexdigest (Sha256.sha256 (encode _generate_claude_only_firewall_script)))
  = lit "4d315b2e".
Proof. vm_compute. reflexivity. Qed.

(** *** Reading a generated script

    What the shell does with the text: the lines, the hosts handed to
    [getent ahostsv4], and the words of the [ALLOWED_DOMAINS] variable
    that the dev loop [for domain in $ALLOWED_DOMAINS] iterates over. *)

Definition script_lines (script : pystr) : list pystr := split_on newline script.

(** The suffix after the first occurrence of [p] in [s]. *)
Fixpoint after_first (p s : pystr) : option pystr :=
  if startswith s p then Some (skipn (length p) s)
  else match s with
       | [] => None
       | _ :: s' => after_first p s'
       end.

Fixpoint take_until (stop : ascii -> bool) (s : pystr) : pystr :=
  match s with
  | [] => []
  | c :: s' => if stop c then [] else c :: take_until stop s'
  end.

(** Shell word splitting on blanks and newlines. *)
Fixpoint shell_words_acc (cur : pystr) (s : pystr) : list pystr :=
  match s with
  | [] => match cur with [] => [] | _ => [rev cur] end
  | c :: s' =>
      if isspace c then
        match cur with
        | [] => shell_words_acc [] s'
        | _ => rev cur :: shell_words_acc [] s'
        end
      else shell_words_acc (c :: cur) s'
  end.
Definition shell_words (s : pystr) : list pystr := shell_words_acc [] s.

Definition GETENT : pystr := lit "getent ahostsv4 ".

(** The first argument of every [getent ahostsv4] call, in script order. *)
Definition getent_targets (script : pystr) : list pystr :=
  flat_map (fun l => match after_first GETENT l with
                     | Some rest => [take_until isspace rest]
                     | None => []
                     end) (script_lines script).

(** The value of [ALLOWED_DOMAINS="..."] split into words. *)
Definition allowed_domains_var (script : pystr) : list pystr :=
  match after_first (lit "ALLOWED_DOMAINS=" ++ [dq]) script with
  | Some rest => shell_words (take_until (Ascii.eqb dq) rest)
  | None => []
  end.

(** The hosts whose addresses the script resolves: a literal target stands
    for itself, the loop variable [$domain] for every word of the list. *)
Definition resolved_domains (script : pystr) : list pystr :=
  flat_map (fun t => if pystr_eqb t (lit "$domain") then allowed_domains_var script
                     else [t]) (getent_targets script).

Definition ACCEPT_RULE : pystr := lit "-j ACCEPT".
Definition DROP_RULE : pystr := lit "iptables -A OUTPUT -j DROP".

(** Every accept line comes before every drop line. *)
Definition accepts_before_drop (ls : list pystr) : bool :=
  let ils := combine (seq 0 (length ls)) ls in
  forallb (fun '(i, l) =>
    negb (contains l ACCEPT_RULE) ||
    forallb (fun '(j, l') => negb (contains l' DROP_RULE) || (i <? j)%nat) ils) ils.

(** ** Engine invocations and the run command

    Every engine call is a subprocess; the world answers it with a
    [CompletedProcess].  A run of the CLI is a trace of engine calls,
    confirmation prompts and console messages, ended by a return (exit 0)
    or a [typer.Exit(code)]. *)

Record proc_result := mkResult {
  returncode : Z;
  stdout : pystr;
  stderr : pystr
}.

(** The engine subcommands issued, after the engine's own name. *)
Inductive engine_op :=
| OpPs (running_only : bool)
| OpRm (name_or_id : pystr)
| OpPull (image : pystr)
| OpRun (detach : bool) (argv : list pystr) (port_args : bool * option (list Z))
| OpExecIt (name_or_id : pystr).

(** Console output of [run], one constructor per [console.print] site. *)
Inductive message :=
| MsgBadEngine
| MsgExclusiveFlags
| MsgPortsIgnored
| MsgMountMismatch (name mounted folder : pystr)
| MsgConnectingAnyway
| MsgFoundRunning (name : pystr)
| MsgAlreadyRunning (name : pystr)
| MsgContainerId (cid : pystr)
| MsgFoundStopped (name : pystr)
| MsgRemovingForced
| MsgRemoveError (err : pystr)
| MsgCancelled
| MsgStarting (folder dir : pystr)
| MsgStartingInteractive (folder dir : pystr)
| MsgTypeExit
| MsgStarted (cid : pystr)
| MsgError (err : pystr).

Inductive event :=
| EvEngine (engine : pystr) (op : engine_op)
| EvConfirm
| EvPrint (m : message).

Record world := mkWorld {
  respond : pystr -> engine_op -> proc_result;
  confirm_answer : bool
}.

Inductive outcome (A : Type) :=
| Done (a : A)
| Exited (code : Z).
Arguments Done {A} a.
Arguments Exited {A} code.

Module Cli.

Definition M (A : Type) := world -> list event -> list event * outcome A.

Definition ret {A} (a : A) : M A := fun _ tr => (tr, Done a).
Definition bind {A B} (m : M A) (k : A -> M B) : M B :=
  fun w tr => match m w tr with
              | (tr', Done a) => k a w tr'
              | (tr', Exited c) => (tr', Exited c)
              end.
Notation "'let*' x := m 'in' k" := (bind m (fun x => k))
  (at level 200, x name, m at level 100, k at level 200).
Notation "m ;; k" := (bind m (fun _ => k)) (at level 100, right associativity).

(** [raise typer.Exit(code)] *)
Definition exit {A} (code : Z) : M A := fun _ tr => (tr, Exited code).
Definition print (m : message) : M unit := fun _ tr => (tr ++ [EvPrint m], Done tt).
(** [subprocess.run([engine, ...])] *)
Definition call (engine : pystr) (op : engine_op) : M proc_result :=
  fun w tr => (tr ++ [EvEngine engine op], Done (respond w engine op)).
(** [typer.confirm(...)] *)
Definition confirm : M bool := fun w tr => (tr ++ [EvConfirm], Done (confirm_answer w)).
(** [console.print(..., err=True)]: rich's [Console.print] has no [err]
    parameter, so the call raises [TypeError] before printing anything; the
    exception is not caught and the process ends with status 1. *)
Definition print_err (m : message) : M unit := fun _ tr => (tr, Exited 1).

End Cli.
Import Cli.

(** ** Engine adapter

    [cli.run] calls the adapter with [engine=...] (and [run_container] with
    [expose_ports=...] and [ports=...]); the functions of that signature are
    not among the sources, whose [container.py] hard-wires [podman].  The
    definitions below follow [container.py] line for line with the selected
    engine in place of [podman]. *)
Module Engine.

(** Modelled from the spec: the engine-selecting [list_containers]
    ("list(running_only)": [ps --filter label=<managed>=true --format ... [-a]]),
    following [container.py]'s [list_containers], which returns [[]] when
    the [ps] call exits non-zero (the spec's general failure rule would
    have that failure surface; only this branch departs from it, and only
    a run whose [ps] fails goes through it). *)
Definition list_containers (engine : pystr) (running_only : bool) : M (list Container) :=
  let* result := call engine (OpPs running_only) in
  if negb (returncode result =? 0) then ret []
  else ret (parse_ps_output (stdout result)).

(** Modelled from the spec: the engine-selecting [find_container_by_name]
    ([find_by_name]), following [container.py]: the first listed container
    of that name, running or stopped. *)
Definition find_container_by_name (name : pystr) (engine : pystr) : M (option Container) :=
  let* containers := list_containers engine false in
  ret (find (fun c => let 'mkContainer _ cname _ _ := c in pystr_eqb cname name) containers).

(** Modelled from the spec: the engine-selecting [remove_container]
    ([rm <name>], result returned to the caller). *)
Definition remove_container (name_or_id : pystr) (engine : pystr) : M proc_result :=
  call engine (OpRm name_or_id).

(** Modelled from the spec: the engine-selecting [attach_container]
    ([exec -it <name> bash]; its result is discarded). *)
Definition attach_container (name_or_id : pystr) (engine : pystr) : M unit :=
  let* _ := call engine (OpExecIt name_or_id) in ret tt.

(** Modelled from the spec: the engine-selecting [pull_image] ([pull <image>]). *)
Definition pull_image (image : pystr) (engine : pystr) : M proc_result :=
  call engine (OpPull image).

(** The container command of [run_container] after [<engine> run]. *)
Definition run_argv (folder_path image : pystr) (detach : bool) (name mount_target : pystr)
    (no_internet only_claude only_dev : bool) : list pystr :=
  [lit "--replace"] ++
  (if no_internet then [lit "--network=none"] else []) ++
  (if detach then [lit "-d"] else [lit "-it"]) ++
  [lit "--name"; name; lit "--userns=keep-id"; lit "--privileged";
   lit "--label"; LABEL_MANAGED ++ lit "=true";
   lit "--label"; LABEL_MOUNTED_PATH ++ lit "=" ++ folder_path;
   lit "-v"; folder_path ++ lit ":" ++ mount_target;
   lit "-w"; mount_target; image] ++
  (if only_claude || only_dev then
     let firewall_script :=
       if only_dev then _generate_dev_only_firewall_script
       else _generate_claude_only_firewall_script in
     let final_cmd :=
       if detach then firewall_script ++ [newline] ++ lit "exec sleep infinity"
       else firewall_script ++ [newline] ++ lit "exec bash" in
     [lit "sh"; lit "-c"; final_cmd]
   else if detach then [lit "sleep"; lit "infinity"] else [lit "bash"]).

(** Modelled from the spec: the engine-selecting [run_container] with port
    exposure ("run(folder, image, detach, name, mount_target, network_tier,
    ports, engine)"), following [container.py]'s [run_container]: in
    detached mode the image is pulled first and a failed pull is returned
    in place of the run.  Which ports the engine publishes is said neither
    by the sources nor by the spec, so the run call records the
    [expose_ports] and [ports] arguments as handed over. *)
Definition run_container (folder_path image : pystr) (detach : bool) (name mount_target : pystr)
    (no_internet only_claude only_dev : bool) (engine : pystr)
    (expose_ports : bool) (ports : option (list Z)) : M (option proc_result) :=
  let cmd := OpRun detach (run_argv folder_path image detach name mount_target
                             no_internet only_claude only_dev)
                   (expose_ports, ports) in
  if detach then
    let* pull_result := pull_image image engine in
    if negb (returncode pull_result =? 0) then ret (Some pull_result)
    else let* r := call engine cmd in ret (Some r)
  else
    let* _ := call engine cmd in ret None.

End Engine.

(** ** cli.run *)

Record RunArgs := mkArgs {
  folder : pystr;            (** already resolved by typer ([resolve_path=True]) *)
  image : pystr;
  detach : bool;
  arg_name : option pystr;   (** [--name] *)
  container_dir : pystr;
  force : bool;
  no_internet : bool;
  only_claude : bool;
  only_dev : bool;
  engine : pystr;
  expose_ports : bool;
  ports : option (list Z)
}.

Definition b2n (b : bool) : nat := if b then 1%nat else 0%nat.

(** [name] after [if name is None: name = generate_container_name(folder)]. *)
Definition target_name (a : RunArgs) : pystr :=
  match arg_name a with
  | Some n => n
  | None => generate_container_name (folder a)
  end.

(** [status] test of the running branch. *)
Definition is_running (status : pystr) : bool :=
  contains status (lit "Up") || contains (lower status) (lit "running").

(** [# Proceed with container creation] *)
Definition create (a : RunArgs) (name : pystr) (expose_ports : bool) : M unit :=
  if detach a then
    print (MsgStarting (folder a) (container_dir a)) ;;
    let* result := Engine.run_container (folder a) (image a) true name (container_dir a)
                     (no_internet a) (only_claude a) (only_dev a) (engine a)
                     expose_ports (ports a) in
    match result with
    | Some r =>
        if returncode r =? 0 then print (MsgStarted (take 12 (strip (stdout r))))
        else print_err (MsgError (stderr r)) ;; exit 1
    | None => ret tt
    end
  else
    print (MsgStartingInteractive (folder a) (container_dir a)) ;;
    print MsgTypeExit ;;
    let* _ := Engine.run_container (folder a) (image a) false name (container_dir a)
                (no_internet a) (only_claude a) (only_dev a) (engine a)
                expose_ports (ports a) in
    ret tt.

(** The remove-then-check block shared by the forced and the confirmed path. *)
Definition remove_stopped (a : RunArgs) (name : pystr) : M unit :=
  let* remove_result := Engine.remove_container name (engine a) in
  if negb (returncode remove_result =? 0) then
    print_err (MsgRemoveError (stderr remove_result)) ;; exit 1
  else ret tt.

(** [engine not in ("podman", "docker")] negated. *)
Definition valid_engine (engine : pystr) : bool :=
  pystr_eqb engine (lit "podman") || pystr_eqb engine (lit "docker").

(** [sum([no_internet, only_claude, only_dev])] *)
Definition network_flags (a : RunArgs) : nat :=
  (b2n (no_internet a) + b2n (only_claude a) + b2n (only_dev a))%nat.

Definition run (a : RunArgs) : M unit :=
  if negb (valid_engine (engine a)) then print MsgBadEngine ;; exit 1
  else
  if (1 <? network_flags a)%nat then print MsgExclusiveFlags ;; exit 1
  else
  let* expose_ports :=
    if expose_ports a && no_internet a then print MsgPortsIgnored ;; ret false
    else ret (expose_ports a) in
  let name := target_name a in
  let* existing_container := Engine.find_container_by_name name (engine a) in
  match existing_container with
  | Some c =>
      if is_running (status c) then
        (if negb (pystr_eqb (mounted_path c) []) &&
            negb (pystr_eqb (mounted_path c) (folder a)) then
           print (MsgMountMismatch name (mounted_path c) (folder a)) ;;
           print MsgConnectingAnyway
         else print (MsgFoundRunning name)) ;;
        (if detach a then
           print (MsgAlreadyRunning name) ;; print (MsgContainerId (id c))
         else Engine.attach_container name (engine a))
      else
        print (MsgFoundStopped name) ;;
        (if force a then
           print MsgRemovingForced ;; remove_stopped a name
         else
           let* response := confirm in
           if negb response then print MsgCancelled ;; exit 0
           else remove_stopped a name) ;;
        create a name expose_ports
  | None => create a name expose_ports
  end.

(** Running the command from an empty trace. *)
Definition exec_run (w : world) (a : RunArgs) : list event * outcome unit := run a w [].

(** The process exit status: 0 on return, the code of [typer.Exit] otherwise. *)
Definition exit_code (o : outcome unit) : Z :=
  match o with Done _ => 0 | Exited c => c end.

Definition engine_calls (tr : list event) : list engine_op :=
  flat_map (fun e => match e with EvEngine _ op => [op] | _ => [] end) tr.

(** What [find_container_by_name] sees, read off the world's [ps] answer. *)
Definition found (w : world) (engine name : pystr) : option Container :=
  let r := respond w engine (OpPs false) in
  if returncode r =? 0 then
    find (fun c => let 'mkContainer _ cname _ _ := c in pystr_eqb cname name)
         (parse_ps_output (stdout r))
  else None.

(** ** The podman-bound functions of container.py and the other commands

    [container.py]'s [list_containers], [find_container_by_name],
    [stop_container], [remove_container], [attach_container] and
    [exec_in_container] call [podman] with a fixed argument vector; [cli.py]'s
    [list], [stop], [rm], [attach] and [turn-off-claude-websearch] commands
    call them.  A call is recorded with its full argument vector. *)
Module Commands.

(** Console output of the commands. *)
Inductive cmd_message :=
| CMsgNoContainers
| CMsgTable (rows : list (list pystr))
| CMsgStopping (c : pystr)
| CMsgStopped
| CMsgRemoving (c : pystr)
| CMsgRemoved
| CMsgAttaching (c : pystr)
| CMsgTypeExit
| CMsgDisabling (c : pystr)
| CMsgDisabled
| CMsgError (err : pystr).

Inductive cmd_event :=
| CCall (argv : list pystr)
| CPrint (m : cmd_message).

(** The answer of [subprocess.run] to each argument vector. *)
Record pworld := mkPWorld { answer : list pystr -> proc_result }.

(** How a command ends: it returns, raises [typer.Exit(code)], or lets a
    Python exception escape (named by its class). *)
Inductive cmd_outcome (A : Type) :=
| Ok (a : A)
| ExitWith (code : Z)
| Raised (exc : pystr).
Arguments Ok {A} a.
Arguments ExitWith {A} code.
Arguments Raised {A} exc.

(** The exit status of the process: an escaping exception exits with 1. *)
Definition exit_status {A} (o : cmd_outcome A) : Z :=
  match o with Ok _ => 0 | ExitWith c => c | Raised _ => 1 end.

Definition P (A : Type) := pworld -> list cmd_event -> list cmd_event * cmd_outcome A.

Definition pret {A} (a : A) : P A := fun _ tr => (tr, Ok a).
Definition pbind {A B} (m : P A) (k : A -> P B) : P B :=
  fun w tr => match m w tr with
              | (tr', Ok a) => k a w tr'
              | (tr', ExitWith c) => (tr', ExitWith c)
              | (tr', Raised e) => (tr', Raised e)
              end.
Local Set Warnings "-notation-overridden".
Local Notation "'let*' x := m 'in' k" := (pbind m (fun x => k))
  (at level 200, x name, m at level 100, k at level 200).
Local Notation "m ;; k" := (pbind m (fun _ => k)) (at level 100, right associativity).

Definition pexit {A} (code : Z) : P A := fun _ tr => (tr, ExitWith code).
(** [console.print(...)] *)
Definition pprint (m : cmd_message) : P unit := fun _ tr => (tr ++ [CPrint m], Ok tt).
(** [console.print(..., err=True)]: rich's [Console.print] has no [err]
    parameter, so the call raises [TypeError] before printing anything. *)
Definition pprint_err (_ : cmd_message) : P unit := fun _ tr => (tr, Raised (lit "TypeError")).
(** [subprocess.run(argv, ...)] *)
Definition prun (argv : list pystr) : P proc_result :=
  fun w tr => (tr ++ [CCall argv], Ok (answer w argv)).

Definition PODMAN : pystr := lit "podman".
Definition PS_FORMAT : pystr := lit "{{.ID}}|{{.Names}}|{{.Status}}|{{.Labels}}".

(** The [ps] command of [list_containers]. *)
Definition ps_argv (running_only : bool) : list pystr :=
  [PODMAN; lit "ps"; lit "--filter"; lit "label=" ++ LABEL_MANAGED ++ lit "=true";
   lit "--format"; PS_FORMAT] ++
  (if negb running_only then [lit "-a"] else []).

Definition list_containers (running_only : bool) : P (list Container) :=
  let* result := prun (ps_argv running_only) in
  if negb (returncode result =? 0) then pret []
  else pret (parse_ps_output (stdout result)).

Definition find_container_by_name (name : pystr) : P (option Container) :=
  let* containers := list_containers false in
  pret (find (fun c => let 'mkContainer _ cname _ _ := c in pystr_eqb cname name)
             containers).

Definition stop_container (name_or_id : pystr) : P proc_result :=
  prun [PODMAN; lit "stop"; name_or_id].

Definition remove_container (name_or_id : pystr) : P proc_result :=
  prun [PODMAN; lit "rm"; name_or_id].

Definition attach_container (name_or_id : pystr) : P unit :=
  let* _ := prun [PODMAN; lit "exec"; lit "-it"; name_or_id; lit "bash"] in pret tt.

Definition exec_in_container (name_or_id : pystr) (command : list pystr) : P proc_result :=
  prun ([PODMAN; lit "exec"; name_or_id] ++ command).

(** cli.py [list_cmd] *)
Definition list_cmd (running : bool) : P unit :=
  let* containers := list_containers running in
  match containers with
  | [] => pprint CMsgNoContainers
  | _ => pprint (CMsgTable (map (fun c => [id c; name c; status c; mounted_path c]) containers))
  end.

(** cli.py [stop] *)
Definition stop (container : pystr) : P unit :=
  pprint (CMsgStopping container) ;;
  let* result := stop_container container in
  if returncode result =? 0 then pprint CMsgStopped
  else pprint_err (CMsgError (stderr result)) ;; pexit 1.

(** cli.py [rm] *)
Definition rm (container : pystr) : P unit :=
  pprint (CMsgRemoving container) ;;
  let* result := remove_container container in
  if returncode result =? 0 then pprint CMsgRemoved
  else pprint_err (CMsgError (stderr result)) ;; pexit 1.

(** cli.py [attach] *)
Definition attach (container : pystr) : P unit :=
  pprint (CMsgAttaching container) ;;
  pprint CMsgTypeExit ;;
  attach_container container.

Definition WEBSEARCH_OFF : list pystr :=
  [lit "claude"; lit "config"; lit "set"; lit "webSearch"; lit "false"].

(** cli.py [turn_off_claude_websearch] *)
Definition turn_off_claude_websearch (container : pystr) : P unit :=
  pprint (CMsgDisabling container) ;;
  let* result := exec_in_container container WEBSEARCH_OFF in
  if returncode result =? 0 then pprint CMsgDisabled
  else pprint_err (CMsgError (stderr result)) ;; pexit 1.

Definition calls (tr : list cmd_event) : list (list pystr) :=
  flat_map (fun e => match e with CCall argv => [argv] | _ => [] end) tr.

End Commands.

(** *** Concrete worlds for the end-to-end scenarios *)

Definition ok_result (out : pystr) : proc_result := mkResult 0 out [].

(** A world whose [ps] prints [ps_out] and whose [rm], [pull] and [run]
    exit with the given codes. *)
Definition scenario (ps_out : pystr) (rm_rc pull_rc run_rc : Z) (answer : bool) : world :=
  mkWorld (fun _ op => match op with
                       | OpPs _ => ok_result ps_out
                       | OpRm _ => mkResult rm_rc [] (lit "rm failed")
                       | OpPull _ => mkResult pull_rc [] (lit "pull failed")
                       | OpRun _ _ _ => mkResult run_rc (lit "0123456789abcdef0123") (lit "run failed")
                       | OpExecIt _ => ok_result []
                       end) answer.

Definition ps_line (status : pystr) : pystr :=
  lit "0123456789abcdef|sandboxer-proj-abcd1234|" ++ status ++
  lit "|map[com.sandboxer.managed:true com.sandboxer.mounted-path:/tmp/proj]".

Definition args_for (detach force : bool) : RunArgs :=
  mkArgs (lit "/tmp/proj") DEFAULT_IMAGE detach (Some (lit "sandboxer-proj-abcd1234"))
         MOUNT_TARGET force false false false (lit "podman") true None.

Example scenario_fresh_detached :
  engine_calls (fst (exec_run (scenario [] 0 0 0 true)
                              (mkArgs (lit "/tmp/proj") DEFAULT_IMAGE true None MOUNT_TARGET
                                      false false false false (lit "podman") true None)))
  = [OpPs false; OpPull DEFAULT_IMAGE;
     OpRun true (Engine.run_argv (lit "/tmp/proj") DEFAULT_IMAGE true
                   (lit "sandboxer-proj-29ccbcbc") MOUNT_TARGET false false false) (true, None)].
Proof. vm_compute. reflexivity. Qed.

Example scenario_running_attach :
  exec_run (scenario (ps_line (lit "Up 2 minutes")) 0 0 0 true) (args_for false false)
  = ([EvEngine (lit "podman") (OpPs false);
      EvPrint (MsgFoundRunning (lit "sandboxer-proj-abcd1234"));
      EvEngine (lit "podman") (OpExecIt (lit "sandboxer-proj-abcd1234"))], Done tt).
Proof. vm_compute. reflexivity. Qed.

Example scenario_running_detach :
  engine_calls (fst (exec_run (scenario (ps_line (lit "Up 2 minutes")) 0 0 0 true)
                              (args_for true false))) = [OpPs false].
Proof. vm_compute. reflexivity. Qed.

Example scenario_stopped_declined :
  exec_run (scenario (ps_line (lit "Exited (0) 3 hours ago")) 0 0 0 false) (args_for true false)
  = ([EvEngine (lit "podman") (OpPs false);
      EvPrint (MsgFoundStopped (lit "sandboxer-proj-abcd1234"));
      EvConfirm; EvPrint MsgCancelled], Exited 0).
Proof. vm_compute. reflexivity. Qed.

(** ** Proofs *)

Lemma pystr_eqb_eq (a b : pystr) : pystr_eqb a b = true <-> a = b.
Proof.
  revert b; induction a as [|x a IH]; intros [|y b]; simpl; try (split; congruence).
  rewrite andb_true_iff, IH, Ascii.eqb_eq. split.
  - intros [-> ->]; reflexivity.
  - intros H; injection H; auto.
Qed.

Lemma pystr_eqb_refl (a : pystr) : pystr_eqb a a = true.
Proof. apply pystr_eqb_eq; reflexivity. Qed.

Lemma find_container_by_name_call (w : world) (tr : list event) (e n : pystr) :
  Engine.find_container_by_name n e w tr
  = (tr ++ [EvEngine e (OpPs false)], Done (found w e n)).
Proof.
  unfold Engine.find_container_by_name, Engine.list_containers, found, bind, call, ret.
  destruct (returncode (respond w e (OpPs false)) =? 0); reflexivity.
Qed.

Lemma engine_calls_app (t1 t2 : list event) :
  engine_calls (t1 ++ t2) = engine_calls t1 ++ engine_calls t2.
Proof. unfold engine_calls; apply flat_map_app. Qed.

(** The checks before the first engine call, when they pass. *)
Lemma run_unfold (w : world) (a : RunArgs) :
  valid_engine (engine a) = true ->
  (network_flags a <= 1)%nat ->
  exec_run w a =
  (let tr0 := if expose_ports a && no_internet a then [EvPrint MsgPortsIgnored] else [] in
   let ex := if expose_ports a && no_internet a then false else expose_ports a in
   let name := target_name a in
   match found w (engine a) name with
   | Some c =>
       (if is_running (status c) then
          (if negb (pystr_eqb (mounted_path c) []) &&
              negb (pystr_eqb (mounted_path c) (folder a)) then
             print (MsgMountMismatch name (mounted_path c) (folder a)) ;;
             print MsgConnectingAnyway
           else print (MsgFoundRunning name)) ;;
          (if detach a then
             print (MsgAlreadyRunning name) ;; print (MsgContainerId (id c))
           else Engine.attach_container name (engine a))
        else
          print (MsgFoundStopped name) ;;
          (if force a then print MsgRemovingForced ;; remove_stopped a name
           else
             let* response := confirm in
             if negb response then print MsgCancelled ;; exit 0
             else remove_stopped a name) ;;
          create a name ex)
   | None => create a name ex
   end w (tr0 ++ [EvEngine (engine a) (OpPs false)])).
Proof.
  intros He Hf. unfold exec_run, run. rewrite He. cbn [negb].
  replace (1 <? network_flags a)%nat with false by (symmetry; apply Nat.ltb_ge; lia).
  destruct (expose_ports a && no_internet a);
    cbv beta iota delta [bind print ret];
    rewrite find_container_by_name_call; reflexivity.
Qed.

Lemma mismatch_test (m f : pystr) :
  negb (pystr_eqb m []) && negb (pystr_eqb m f) = true <-> m <> [] /\ m <> f.
Proof.
  rewrite andb_true_iff, !negb_true_iff.
  split.
  - intros [H1 H2]; split; intro E; subst;
      [rewrite pystr_eqb_refl in H1 | rewrite pystr_eqb_refl in H2]; discriminate.
  - intros [H1 H2]; split; apply not_true_iff_false; rewrite pystr_eqb_eq; assumption.
Qed.

Ltac destr_ifs :=
  repeat match goal with |- context [if ?b then _ else _] => destruct b end.

Ltac monad_steps :=
  cbv beta iota delta [bind print print_err ret exit confirm call Engine.attach_container
                       Engine.remove_container remove_stopped]; simpl.

(** C4: when more than one of [--no-internet], [--only-claude] and
    [--only-dev] is set, [run] exits with code 1 and the trace holds no
    engine call at all. *)
Theorem run_rejects_conflicting_network_flags (w : world) (a : RunArgs)
  (Hflags : (1 < network_flags a)%nat) :
  snd (exec_run w a) = Exited 1 /\ exit_code (snd (exec_run w a)) = 1 /\
  engine_calls (fst (exec_run w a)) = [].
Proof.
  unfold exec_run, run.
  destruct (valid_engine (engine a)); cbn [negb].
  - rewrite (proj2 (Nat.ltb_lt _ _) Hflags). monad_steps. auto.
  - monad_steps. auto.
Qed.

Definition args_conflicting : RunArgs :=
  mkArgs (lit "/tmp/proj") DEFAULT_IMAGE false None MOUNT_TARGET
         false true true false (lit "podman") true None.

Lemma run_rejects_conflicting_network_flags_witness :
  (1 < network_flags args_conflicting)%nat /\
  snd (exec_run (scenario [] 0 0 0 true) args_conflicting) = Exited 1.
Proof.
  assert (H1 : (1 < network_flags args_conflicting)%nat) by (vm_compute; lia).
  split; [exact H1 |].
  exact (proj1 (run_rejects_conflicting_network_flags (scenario [] 0 0 0 true)
                  args_conflicting H1)).
Defined.

(** The warning is printed iff the running container's [mounted_path] is
    non-empty and differs from the folder; [run] then attaches (or, detached,
    reports the container) and returns. *)
Lemma run_running_trace (w : world) (a : RunArgs) (c : Container) :
  valid_engine (engine a) = true ->
  (network_flags a <= 1)%nat ->
  found w (engine a) (target_name a) = Some c ->
  is_running (status c) = true ->
  exec_run w a =
  ((if expose_ports a && no_internet a then [EvPrint MsgPortsIgnored] else []) ++
   [EvEngine (engine a) (OpPs false)] ++
   (if negb (pystr_eqb (mounted_path c) []) && negb (pystr_eqb (mounted_path c) (folder a))
    then [EvPrint (MsgMountMismatch (target_name a) (mounted_path c) (folder a));
          EvPrint MsgConnectingAnyway]
    else [EvPrint (MsgFoundRunning (target_name a))]) ++
   (if detach a
    then [EvPrint (MsgAlreadyRunning (target_name a)); EvPrint (MsgContainerId (id c))]
    else [EvEngine (engine a) (OpExecIt (target_name a))]),
   Done tt).
Proof.
  intros He Hf Hfound Hrun. rewrite run_unfold by assumption. cbv zeta.
  rewrite Hfound, Hrun.
  destruct (expose_ports a && no_internet a);
  destruct (negb (pystr_eqb (mounted_path c) []) && negb (pystr_eqb (mounted_path c) (folder a)));
  destruct (detach a); monad_steps; reflexivity.
Qed.

(** The claim C1 as worded: a mounted path differing from the folder always
    draws the warning. *)
Definition warns_on_any_mismatch : Prop :=
  forall (w : world) (a : RunArgs) (c : Container),
    valid_engine (engine a) = true -> (network_flags a <= 1)%nat ->
    found w (engine a) (target_name a) = Some c ->
    is_running (status c) = true ->
    mounted_path c <> folder a ->
    In (EvPrint (MsgMountMismatch (target_name a) (mounted_path c) (folder a)))
       (fst (exec_run w a)).

(** A running container whose labels carry no mounted path. *)
Definition ps_line_unlabelled : pystr :=
  lit "0123456789abcdef|sandboxer-proj-abcd1234|Up 2 minutes|map[com.sandboxer.managed:true]".

(** C1 (counterexample): the running container [sandboxer-proj-abcd1234]
    has no mounted-path label, so its [mounted_path] is [""], which differs
    from the requested [/tmp/proj]; yet [run] prints no mismatch warning. *)
Lemma run_running_empty_mount_no_warning_cex : ~ warns_on_any_mismatch.
Proof.
  intro H.
  pose proof (H (scenario ps_line_unlabelled 0 0 0 true) (args_for false false)
                (mkContainer (lit "0123456789ab") (lit "sandboxer-proj-abcd1234")
                             (lit "Up 2 minutes") [])) as Hin.
  vm_compute in Hin.
  destruct (Hin eq_refl ltac:(lia) eq_refl eq_refl ltac:(discriminate))
    as [E | [E | [E | []]]]; discriminate.
Qed.

(** C1 (amended): when [find_container_by_name] yields a container whose
    status contains [Up] or, case-insensitively, [running], [run] returns
    (exit 0) with no remove, pull or run call: the only engine calls are the
    [ps] query and, unless detached, the interactive [exec]; detached, the
    name and id of the container are printed; a non-empty recorded
    [mounted_path] that differs from the requested folder draws a warning
    before the attach, and an empty one (label absent or unparseable) draws
    no warning at all. *)
Theorem run_running_container_reused (w : world) (a : RunArgs) (c : Container)
  (He : valid_engine (engine a) = true)
  (Hf : (network_flags a <= 1)%nat)
  (Hfound : found w (engine a) (target_name a) = Some c)
  (Hrun : is_running (status c) = true) :
  snd (exec_run w a) = Done tt /\
  engine_calls (fst (exec_run w a)) =
    OpPs false :: (if detach a then [] else [OpExecIt (target_name a)]) /\
  (detach a = true ->
     In (EvPrint (MsgAlreadyRunning (target_name a))) (fst (exec_run w a)) /\
     In (EvPrint (MsgContainerId (id c))) (fst (exec_run w a))) /\
  (mounted_path c <> [] -> mounted_path c <> folder a ->
     In (EvPrint (MsgMountMismatch (target_name a) (mounted_path c) (folder a)))
        (fst (exec_run w a))) /\
  (mounted_path c = [] ->
     forall n m f, ~ In (EvPrint (MsgMountMismatch n m f)) (fst (exec_run w a))).
Proof.
  rewrite (run_running_trace w a c He Hf Hfound Hrun). simpl fst; simpl snd.
  split; [reflexivity|]. split; [|split; [|split]].
  - rewrite !engine_calls_app.
    destruct (expose_ports a && no_internet a);
    destruct (negb (pystr_eqb (mounted_path c) []) && negb (pystr_eqb (mounted_path c) (folder a)));
    destruct (detach a); reflexivity.
  - intros ->. split; destr_ifs; simpl; tauto.
  - intros H1 H2. rewrite (proj2 (mismatch_test _ _) (conj H1 H2)).
    destr_ifs; simpl; tauto.
  - intros Hempty n m f. rewrite Hempty. cbn [pystr_eqb negb andb].
    destr_ifs; simpl; intuition discriminate.
Qed.

Definition world_up : world := scenario (ps_line (lit "Up 2 minutes")) 0 0 0 true.
Definition container_up : Container :=
  mkContainer (lit "0123456789ab") (lit "sandboxer-proj-abcd1234")
              (lit "Up 2 minutes") (lit "/tmp/proj").

Lemma run_running_container_reused_witness :
  found world_up (engine (args_for false false)) (target_name (args_for false false))
    = Some container_up /\
  snd (exec_run world_up (args_for false false)) = Done tt.
Proof.
  assert (H1 : valid_engine (engine (args_for false false)) = true) by (vm_compute; reflexivity).
  assert (H2 : (network_flags (args_for false false) <= 1)%nat) by (vm_compute; lia).
  assert (H3 : found world_up (engine (args_for false false)) (target_name (args_for false false))
               = Some container_up) by (vm_compute; reflexivity).
  assert (H4 : is_running (status container_up) = true) by (vm_compute; reflexivity).
  split; [exact H3 |].
  exact (proj1 (run_running_container_reused world_up (args_for false false) container_up
                  H1 H2 H3 H4)).
Defined.

(** C10: a running container whose [mounted_path] is empty (label absent
    or unparseable) is reused without any mismatch warning, whatever folder
    was requested; without [--detach] it is attached to. *)
Theorem run_running_unlabelled_no_warning (w : world) (a : RunArgs) (c : Container)
  (He : valid_engine (engine a) = true)
  (Hf : (network_flags a <= 1)%nat)
  (Hfound : found w (engine a) (target_name a) = Some c)
  (Hrun : is_running (status c) = true)
  (Hempty : mounted_path c = []) :
  (forall n m f, ~ In (EvPrint (MsgMountMismatch n m f)) (fst (exec_run w a))) /\
  In (EvPrint (MsgFoundRunning (target_name a))) (fst (exec_run w a)) /\
  (detach a = false ->
     In (EvEngine (engine a) (OpExecIt (target_name a))) (fst (exec_run w a))) /\
  snd (exec_run w a) = Done tt.
Proof.
  rewrite (run_running_trace w a c He Hf Hfound Hrun), Hempty. simpl fst; simpl snd.
  split; [|split; [|split]].
  - intros n m f Hin. revert Hin. destr_ifs; simpl; intuition discriminate.
  - destr_ifs; simpl; tauto.
  - intros ->. destr_ifs; simpl; tauto.
  - reflexivity.
Qed.

Definition world_up_unlabelled : world := scenario ps_line_unlabelled 0 0 0 true.
Definition container_up_unlabelled : Container :=
  mkContainer (lit "0123456789ab") (lit "sandboxer-proj-abcd1234") (lit "Up 2 minutes") [].

Lemma run_running_unlabelled_no_warning_witness :
  found world_up_unlabelled (engine (args_for false false)) (target_name (args_for false false))
    = Some container_up_unlabelled /\
  snd (exec_run world_up_unlabelled (args_for false false)) = Done tt.
Proof.
  assert (H1 : valid_engine (engine (args_for false false)) = true) by (vm_compute; reflexivity).
  assert (H2 : (network_flags (args_for false false) <= 1)%nat) by (vm_compute; lia).
  assert (H3 : found world_up_unlabelled (engine (args_for false false))
                 (target_name (args_for false false)) = Some container_up_unlabelled)
    by (vm_compute; reflexivity).
  assert (H4 : is_running (status container_up_unlabelled) = true) by (vm_compute; reflexivity).
  assert (H5 : mounted_path container_up_unlabelled = []) by reflexivity.
  split; [exact H3 |].
  exact (proj2 (proj2 (proj2 (run_running_unlabelled_no_warning world_up_unlabelled
                  (args_for false false) container_up_unlabelled H1 H2 H3 H4 H5)))).
Defined.

(** C2: a stopped container found, no [--force], and the confirmation
    refused: [run] ends with [typer.Exit(0)], the only engine call is the
    [ps] query (no [rm], no [pull], no [run]), and nothing but the notices
    "found stopped" and "cancelled" (and the port notice) is printed. *)
Theorem run_stopped_declined_no_effect (w : world) (a : RunArgs) (c : Container)
  (He : valid_engine (engine a) = true)
  (Hf : (network_flags a <= 1)%nat)
  (Hfound : found w (engine a) (target_name a) = Some c)
  (Hstopped : is_running (status c) = false)
  (Hforce : force a = false)
  (Hdecline : confirm_answer w = false) :
  snd (exec_run w a) = Exited 0 /\ exit_code (snd (exec_run w a)) = 0 /\
  engine_calls (fst (exec_run w a)) = [OpPs false] /\
  (forall m, In (EvPrint m) (fst (exec_run w a)) ->
     m = MsgPortsIgnored \/ m = MsgFoundStopped (target_name a) \/ m = MsgCancelled).
Proof.
  rewrite run_unfold by assumption. cbv zeta.
  rewrite Hfound, Hstopped, Hforce. monad_steps. rewrite Hdecline. simpl.
  destruct (expose_ports a && no_internet a); simpl;
    (split; [reflexivity | split; [reflexivity | split; [reflexivity |]]]);
    intros m Hm; intuition congruence.
Qed.

Definition world_stopped (rm_rc pull_rc : Z) (answer : bool) : world :=
  scenario (ps_line (lit "Exited (0) 3 hours ago")) rm_rc pull_rc 0 answer.
Definition container_stopped : Container :=
  mkContainer (lit "0123456789ab") (lit "sandboxer-proj-abcd1234")
              (lit "Exited (0) 3 hours ago") (lit "/tmp/proj").

Lemma run_stopped_declined_no_effect_witness :
  found (world_stopped 0 0 false) (engine (args_for false false))
        (target_name (args_for false false)) = Some container_stopped /\
  engine_calls (fst (exec_run (world_stopped 0 0 false) (args_for false false))) = [OpPs false].
Proof.
  assert (H1 : valid_engine (engine (args_for false false)) = true) by (vm_compute; reflexivity).
  assert (H2 : (network_flags (args_for false false) <= 1)%nat) by (vm_compute; lia).
  assert (H3 : found (world_stopped 0 0 false) (engine (args_for false false))
                 (target_name (args_for false false)) = Some container_stopped)
    by (vm_compute; reflexivity).
  assert (H4 : is_running (status container_stopped) = false) by (vm_compute; reflexivity).
  assert (H5 : force (args_for false false) = false) by reflexivity.
  assert (H6 : confirm_answer (world_stopped 0 0 false) = false) by reflexivity.
  split; [exact H3 |].
  exact (proj1 (proj2 (proj2 (run_stopped_declined_no_effect (world_stopped 0 0 false)
                  (args_for false false) container_stopped H1 H2 H3 H4 H5 H6)))).
Defined.

(** Engine calls that create: the image pull and the container run. *)
Definition is_create_op (op : engine_op) : bool :=
  match op with OpPull _ | OpRun _ _ _ => true | _ => false end.

Definition no_create (tr : list event) : Prop :=
  forall op, In op (engine_calls tr) -> is_create_op op = false.

Lemma no_create_app (t1 t2 : list event) : no_create t1 -> no_create t2 -> no_create (t1 ++ t2).
Proof.
  unfold no_create; intros H1 H2 op; rewrite engine_calls_app, in_app_iff; intuition.
Qed.

Ltac no_create_solve :=
  unfold no_create; intros ?op ?Hop;
  repeat (rewrite ?engine_calls_app, ?in_app_iff in Hop);
  destr_ifs; simpl in Hop; intuition (subst; reflexivity).

(** Every run either stops before the creation step, with no pull or run
    issued, or reaches [create] from such a trace. *)
Lemma run_reaches_create (w : world) (a : RunArgs) :
  (exists tr o, exec_run w a = (tr, o) /\ no_create tr) \/
  (exists tr ex, exec_run w a = create a (target_name a) ex w tr /\ no_create tr).
Proof.
  unfold exec_run, run.
  destruct (valid_engine (engine a)); cbn [negb];
    [| left; eexists _, _; split; [reflexivity | no_create_solve]].
  destruct (1 <? network_flags a)%nat;
    [left; eexists _, _; split; [reflexivity | no_create_solve] |].
  destruct (expose_ports a && no_internet a);
    cbv beta iota delta [bind print ret]; rewrite find_container_by_name_call;
    destruct (found w (engine a) (target_name a)) as [c|].
  all: try (right; eexists _, _; split; [reflexivity | no_create_solve]).
  all: repeat (destr_ifs; monad_steps).
  all: first [ left; eexists _, _; split; [reflexivity | no_create_solve]
             | right; eexists _, _; split; [reflexivity | no_create_solve] ].
Qed.

(** The container command [create] hands to the engine. *)
Definition create_op (a : RunArgs) (n : pystr) (ex : bool) : engine_op :=
  OpRun (detach a) (Engine.run_argv (folder a) (image a) (detach a) n (container_dir a)
                      (no_internet a) (only_claude a) (only_dev a))
        (ex, ports a).

Lemma create_detached (w : world) (a : RunArgs) (n : pystr) (ex : bool) (tr : list event) :
  detach a = true ->
  create a n ex w tr =
  let pull := respond w (engine a) (OpPull (image a)) in
  let tr1 := tr ++ [EvPrint (MsgStarting (folder a) (container_dir a));
                    EvEngine (engine a) (OpPull (image a))] in
  if returncode pull =? 0 then
    let r := respond w (engine a) (create_op a n ex) in
    if returncode r =? 0 then
      (tr1 ++ [EvEngine (engine a) (create_op a n ex);
               EvPrint (MsgStarted (take 12 (strip (stdout r))))], Done tt)
    else (tr1 ++ [EvEngine (engine a) (create_op a n ex)], Exited 1)
  else (tr1, Exited 1).
Proof.
  intros Hd. unfold create, create_op. rewrite Hd.
  cbv beta iota zeta delta [bind print print_err ret exit call Engine.run_container
                            Engine.pull_image].
  destruct (returncode (respond w (engine a) (OpPull (image a))) =? 0) eqn:Ep;
    simpl; rewrite ?Ep; simpl.
  - destruct (returncode (respond w (engine a) (OpRun true (Engine.run_argv (folder a)
                (image a) true n (container_dir a) (no_internet a) (only_claude a) (only_dev a))
                (ex, ports a))) =? 0) eqn:Er;
      simpl; rewrite ?Er; simpl; repeat rewrite <- app_assoc; reflexivity.
  - repeat rewrite <- app_assoc; reflexivity.
Qed.

(** C3 (remove): when the stopped container is to be replaced (forced or
    confirmed) and [rm] exits non-zero, [run] ends with status 1 (the error
    print raises before printing); no pull and no run call follow. *)
Lemma run_remove_failure_fatal (w : world) (a : RunArgs) (c : Container)
  (He : valid_engine (engine a) = true)
  (Hf : (network_flags a <= 1)%nat)
  (Hfound : found w (engine a) (target_name a) = Some c)
  (Hstopped : is_running (status c) = false)
  (Hgo : force a = true \/ confirm_answer w = true)
  (Hrm : returncode (respond w (engine a) (OpRm (target_name a))) <> 0) :
  snd (exec_run w a) = Exited 1 /\
  engine_calls (fst (exec_run w a)) = [OpPs false; OpRm (target_name a)].
Proof.
  rewrite run_unfold by assumption. cbv zeta.
  rewrite Hfound, Hstopped. monad_steps.
  assert (Hr : (returncode (respond w (engine a) (OpRm (target_name a))) =? 0) = false)
    by (apply Z.eqb_neq; exact Hrm).
  destruct (force a) eqn:Hfo.
  - simpl. rewrite Hr. simpl.
    destruct (expose_ports a && no_internet a); simpl;
      repeat split; try reflexivity; simpl; tauto.
  - destruct Hgo as [Hx | Hyes]; [discriminate |].
    simpl. rewrite Hyes. simpl. rewrite Hr. simpl.
    destruct (expose_ports a && no_internet a); simpl;
      repeat split; try reflexivity; simpl; tauto.
Qed.

(** C3 (pull): in detached mode every container run is the last engine
    call and comes right after the image pull; when the pull exits non-zero
    no container run is issued at all and, the pull having been issued,
    [run] ends with status 1 (the error print raises before printing). *)
Lemma run_detached_pull_gates_run (w : world) (a : RunArgs) (Hd : detach a = true) :
  (forall d argv p, In (OpRun d argv p) (engine_calls (fst (exec_run w a))) ->
     exists pre, engine_calls (fst (exec_run w a)) = pre ++ [OpPull (image a); OpRun d argv p]) /\
  (returncode (respond w (engine a) (OpPull (image a))) <> 0 ->
     (forall d argv p, ~ In (OpRun d argv p) (engine_calls (fst (exec_run w a)))) /\
     (In (OpPull (image a)) (engine_calls (fst (exec_run w a))) ->
        snd (exec_run w a) = Exited 1)).
Proof.
  destruct (run_reaches_create w a) as [[tr [o [E Hnc]]] | [tr [ex [E Hnc]]]];
    rewrite E; simpl fst; simpl snd.
  - split; [| split].
    + intros d argv p Hin. specialize (Hnc _ Hin). discriminate.
    + intros d argv p Hin. specialize (Hnc _ Hin). discriminate.
    + intros Hin. specialize (Hnc _ Hin). discriminate.
  - rewrite (create_detached w a (target_name a) ex tr Hd). cbv zeta.
    destruct (returncode (respond w (engine a) (OpPull (image a))) =? 0) eqn:Hp.
    + split.
      * destruct (returncode (respond w (engine a) (create_op a (target_name a) ex)) =? 0);
          (simpl fst; rewrite !engine_calls_app, <- ?app_assoc; simpl;
           intros d argv p Hin; exists (engine_calls tr);
           apply in_app_or in Hin; destruct Hin as [Hin | Hin];
           [ specialize (Hnc _ Hin); discriminate
           | destruct Hin as [Hin | [Hin | []]]; [discriminate | rewrite <- Hin; reflexivity] ]).
      * intros Hne. apply Z.eqb_eq in Hp. contradiction.
    + split.
      * intros d argv p. simpl fst; rewrite !engine_calls_app, <- ?app_assoc; simpl.
        intros Hin; apply in_app_or in Hin; destruct Hin as [Hin | Hin].
        -- specialize (Hnc _ Hin); discriminate.
        -- simpl in Hin; destruct Hin as [Hin | []]; discriminate.
      * intros _. split.
        -- intros d argv p. simpl fst; rewrite !engine_calls_app, <- ?app_assoc; simpl.
           intros Hin; apply in_app_or in Hin; destruct Hin as [Hin | Hin].
           ++ specialize (Hnc _ Hin); discriminate.
           ++ simpl in Hin; destruct Hin as [Hin | []]; discriminate.
        -- intros _. reflexivity.
Qed.

(** C3: a non-zero [rm] of the stopped container ends [run] with exit 1
    before any pull or run call; in detached mode the image pull comes right
    before the container run, and a failed pull ends [run] with exit 1 and
    no container run issued. *)
Theorem run_remove_or_pull_failure_fatal :
  (forall (w : world) (a : RunArgs) (c : Container),
     valid_engine (engine a) = true -> (network_flags a <= 1)%nat ->
     found w (engine a) (target_name a) = Some c ->
     is_running (status c) = false ->
     force a = true \/ confirm_answer w = true ->
     returncode (respond w (engine a) (OpRm (target_name a))) <> 0 ->
     snd (exec_run w a) = Exited 1 /\
     engine_calls (fst (exec_run w a)) = [OpPs false; OpRm (target_name a)]) /\
  (forall (w : world) (a : RunArgs), detach a = true ->
     (forall d argv p, In (OpRun d argv p) (engine_calls (fst (exec_run w a))) ->
        exists pre, engine_calls (fst (exec_run w a)) = pre ++ [OpPull (image a); OpRun d argv p]) /\
     (returncode (respond w (engine a) (OpPull (image a))) <> 0 ->
        (forall d argv p, ~ In (OpRun d argv p) (engine_calls (fst (exec_run w a)))) /\
        (In (OpPull (image a)) (engine_calls (fst (exec_run w a))) ->
           snd (exec_run w a) = Exited 1))).
Proof.
  split.
  - intros w a c He Hf Hfound Hs Hgo Hrm.
    destruct (run_remove_failure_fatal w a c He Hf Hfound Hs Hgo Hrm) as [H1 H2]. auto.
  - intros w a Hd. destruct (run_detached_pull_gates_run w a Hd) as [H1 H2].
    split; [exact H1 |]. intros Hp. destruct (H2 Hp) as [H3 H4].
    split; [exact H3 |]. intros Hin. apply H4, Hin.
Qed.

Lemma run_remove_or_pull_failure_fatal_witness :
  snd (exec_run (world_stopped 1 0 true) (args_for true true)) = Exited 1 /\
  (In (OpPull DEFAULT_IMAGE) (engine_calls (fst (exec_run (scenario [] 0 1 0 true)
                                                          (args_for true false)))) /\
   snd (exec_run (scenario [] 0 1 0 true) (args_for true false)) = Exited 1).
Proof.
  assert (H1 : valid_engine (engine (args_for true true)) = true) by (vm_compute; reflexivity).
  assert (H2 : (network_flags (args_for true true) <= 1)%nat) by (vm_compute; lia).
  assert (H3 : found (world_stopped 1 0 true) (engine (args_for true true))
                 (target_name (args_for true true)) = Some container_stopped)
    by (vm_compute; reflexivity).
  assert (H4 : is_running (status container_stopped) = false) by (vm_compute; reflexivity).
  assert (H5 : force (args_for true true) = true \/ confirm_answer (world_stopped 1 0 true) = true)
    by (left; reflexivity).
  assert (H6 : returncode (respond (world_stopped 1 0 true) (engine (args_for true true))
                 (OpRm (target_name (args_for true true)))) <> 0) by (vm_compute; discriminate).
  assert (H7 : detach (args_for true false) = true) by reflexivity.
  assert (H8 : returncode (respond (scenario [] 0 1 0 true) (engine (args_for true false))
                 (OpPull (image (args_for true false)))) <> 0) by (vm_compute; discriminate).
  assert (H9 : In (OpPull (image (args_for true false)))
                 (engine_calls (fst (exec_run (scenario [] 0 1 0 true) (args_for true false)))))
    by (vm_compute; auto 10).
  split.
  - exact (proj1 (proj1 run_remove_or_pull_failure_fatal (world_stopped 1 0 true)
                    (args_for true true) container_stopped H1 H2 H3 H4 H5 H6)).
  - split; [exact H9 |].
    exact (proj2 (proj2 (proj2 run_remove_or_pull_failure_fatal (scenario [] 0 1 0 true)
                    (args_for true false) H7) H8) H9).
Defined.

(** *** Naming *)

Lemma startswith_app (p s : pystr) : startswith (p ++ s) p = true.
Proof.
  induction p as [|c p IH]; simpl; [destruct s; reflexivity | rewrite Ascii.eqb_refl; exact IH].
Qed.

Lemma hexchar_is_hex (n : Z) : Sha256.is_hex (Sha256.hexchar n) = true.
Proof.
  unfold Sha256.is_hex, Sha256.hexchar. apply existsb_exists.
  destruct (Nat.lt_ge_cases (Z.to_nat n) (length Sha256.hexdigits)) as [Hl | Hge].
  - exists (nth (Z.to_nat n) Sha256.hexdigits "0"%char).
    split; [apply nth_In; exact Hl | apply Ascii.eqb_refl].
  - rewrite nth_overflow by exact Hge. exists "0"%char. split; [simpl; auto | reflexivity].
Qed.

Lemma hex8_length (x : Z) : length (Sha256.hex8 x) = 8%nat.
Proof. unfold Sha256.hex8. rewrite length_map, length_seq. reflexivity. Qed.

Lemma hex8_is_hex (x : Z) : forallb Sha256.is_hex (Sha256.hex8 x) = true.
Proof.
  unfold Sha256.hex8. apply forallb_forall. intros c Hc.
  apply in_map_iff in Hc. destruct Hc as [i [<- _]]. apply hexchar_is_hex.
Qed.

Lemma hexdigest_prefix (s : Sha256.hstate) :
  take 8 (Sha256.hexdigest s) = Sha256.hex8 (Sha256.ha s).
Proof.
  unfold take, Sha256.hexdigest.
  rewrite firstn_app, hex8_length, Nat.sub_diag, firstn_O, app_nil_r.
  rewrite <- (hex8_length (Sha256.ha s)) at 1. apply firstn_all.
Qed.

(** C5: [generate_container_name] is the function
    [p |-> "sandboxer-" + basename(p) + "-" + sha256(p).hexdigest()[:8]]
    (so equal paths give equal names); every name starts with [sandboxer-]
    and its last [-]-separated part is exactly eight lower-case hex digits. *)
Theorem generate_container_name_format (p : pystr) :
  generate_container_name p =
    lit "sandboxer-" ++ path_name p ++ lit "-" ++
    take 8 (Sha256.hexdigest (Sha256.sha256 (encode p))) /\
  (forall q, q = p -> generate_container_name q = generate_container_name p) /\
  startswith (generate_container_name p) (lit "sandboxer-") = true /\
  (exists h, generate_container_name p = lit "sandboxer-" ++ path_name p ++ lit "-" ++ h /\
             length h = 8%nat /\ forallb Sha256.is_hex h = true).
Proof.
  split; [reflexivity |]. split; [intros q ->; reflexivity |]. split.
  - apply startswith_app.
  - exists (Sha256.hex8 (Sha256.ha (Sha256.sha256 (encode p)))).
    unfold generate_container_name. rewrite hexdigest_prefix.
    split; [reflexivity | split; [apply hex8_length | apply hex8_is_hex]].
Qed.

(** *** Firewall scripts *)

Lemma in_combine_seq_nth {A} (ls : list A) (k i : nat) (x : A) :
  nth_error ls i = Some x -> In ((k + i)%nat, x) (combine (seq k (length ls)) ls).
Proof.
  revert k i; induction ls as [|y ls IH]; intros k i H; [destruct i; discriminate |].
  destruct i as [|i]; simpl in H |- *.
  - injection H as ->. left. f_equal. lia.
  - right. replace (k + S i)%nat with (S k + i)%nat by lia. apply IH, H.
Qed.

Lemma accepts_before_drop_spec (ls : list pystr) :
  accepts_before_drop ls = true ->
  forall i j l l', nth_error ls i = Some l -> contains l ACCEPT_RULE = true ->
                   nth_error ls j = Some l' -> contains l' DROP_RULE = true -> (i < j)%nat.
Proof.
  unfold accepts_before_drop. intros H i j l l' Hi Hl Hj Hl'.
  rewrite forallb_forall in H.
  specialize (H _ (in_combine_seq_nth ls 0 i l Hi)). simpl in H.
  rewrite Hl in H. simpl in H. rewrite forallb_forall in H.
  specialize (H _ (in_combine_seq_nth ls 0 j l' Hj)). simpl in H.
  rewrite Hl' in H. simpl in H. apply Nat.ltb_lt, H.
Qed.

(** C7: the only-claude script resolves exactly one host, the Claude API
    host, through a single [getent] call; it has the default-deny line
    [sudo iptables -A OUTPUT -j DROP], and every line holding an accept rule
    comes before every line holding that deny rule. *)
Theorem claude_only_script_one_domain_deny_last :
  getent_targets _generate_claude_only_firewall_script = [lit "api.anthropic.com"] /\
  resolved_domains _generate_claude_only_firewall_script = [lit "api.anthropic.com"] /\
  (exists j, nth_error (script_lines _generate_claude_only_firewall_script) j =
             Some (lit "sudo iptables -A OUTPUT -j DROP")) /\
  (forall i j l l',
     nth_error (script_lines _generate_claude_only_firewall_script) i = Some l ->
     contains l ACCEPT_RULE = true ->
     nth_error (script_lines _generate_claude_only_firewall_script) j = Some l' ->
     contains l' DROP_RULE = true -> (i < j)%nat).
Proof.
  split; [vm_compute; reflexivity |].
  split; [vm_compute; reflexivity |].
  split; [exists 21%nat; vm_compute; reflexivity |].
  apply accepts_before_drop_spec. vm_compute. reflexivity.
Qed.

Definition dev_only_domains : list pystr :=
  [lit "api.anthropic.com";
   (* package index *) lit "pypi.org"; lit "files.pythonhosted.org";
   (* JS registry and its web host *) lit "registry.npmjs.org"; lit "npmjs.com";
   (* Go modules *) lit "proxy.golang.org"; lit "sum.golang.org";
   (* cloud storage *) lit "storage.googleapis.com";
   (* source hosting *) lit "github.com"; lit "api.github.com";
   lit "objects.githubusercontent.com"; lit "raw.githubusercontent.com";
   (* install scripts *) lit "astral.sh"; lit "bun.sh"].

(** C8: the hosts the only-dev script resolves (each word of
    [ALLOWED_DOMAINS], iterated by [for domain in $ALLOWED_DOMAINS]) include
    every host the only-claude script resolves, and are exactly the API
    host, two package-index hosts, a JS registry and its web host, two
    Go-module hosts, a cloud-storage host, four source-hosting hosts and two
    install-script hosts. *)
Theorem dev_only_domains_superset :
  (forall d, In d (resolved_domains _generate_claude_only_firewall_script) ->
             In d (resolved_domains _generate_dev_only_firewall_script)) /\
  resolved_domains _generate_dev_only_firewall_script = dev_only_domains /\
  In (lit "api.anthropic.com") (resolved_domains _generate_dev_only_firewall_script) /\
  In (lit "for domain in $ALLOWED_DOMAINS; do") (script_lines _generate_dev_only_firewall_script).
Proof.
  assert (Hdev : resolved_domains _generate_dev_only_firewall_script = dev_only_domains)
    by (vm_compute; reflexivity).
  assert (Hcl : resolved_domains _generate_claude_only_firewall_script = [lit "api.anthropic.com"])
    by (vm_compute; reflexivity).
  split; [| split; [exact Hdev | split]].
  - rewrite Hcl, Hdev. intros d [<- | []]. left. reflexivity.
  - rewrite Hdev. left. reflexivity.
  - vm_compute. tauto.
Qed.

(** *** Engine failures *)










(** *** Parsing [ps] output *)

Lemma free_of_notin (cs : list ascii) (s : pystr) (c : ascii) :
  free_of cs s = true -> In c cs -> ~ In c s.
Proof.
  unfold free_of. rewrite forallb_forall. intros H Hc Hs.
  specialize (H c Hs). apply negb_true_iff in H.
  assert (existsb (Ascii.eqb c) cs = true).
  { apply existsb_exists. exists c. split; [exact Hc | apply Ascii.eqb_refl]. }
  congruence.
Qed.

Lemma split_on_none (c : ascii) (x : pystr) : ~ In c x -> split_on c x = [x].
Proof.
  induction x as [|a x IH]; intros H; [reflexivity |]. simpl.
  destruct (Ascii.eqb_spec a c) as [-> | Hne]; [exfalso; apply H; left; reflexivity |].
  rewrite IH by (intros Hx; apply H; right; exact Hx). reflexivity.
Qed.

Lemma split_on_app (c : ascii) (x r : pystr) :
  ~ In c x -> split_on c (x ++ c :: r) = x :: split_on c r.
Proof.
  induction x as [|a x IH]; intros H; simpl.
  - rewrite Ascii.eqb_refl. reflexivity.
  - destruct (Ascii.eqb_spec a c) as [-> | Hne]; [exfalso; apply H; left; reflexivity |].
    rewrite IH by (intros Hx; apply H; right; exact Hx). reflexivity.
Qed.

Lemma split_on_join (c : ascii) (ls : list pystr) :
  ls <> [] -> Forall (fun x => ~ In c x) ls -> split_on c (join c ls) = ls.
Proof.
  induction ls as [|x [|y t] IH]; intros Hne Hf; [congruence | |].
  - inversion Hf; subst. apply split_on_none; assumption.
  - inversion Hf; subst. change (join c (x :: y :: t)) with (x ++ c :: join c (y :: t)).
    rewrite split_on_app by assumption. rewrite IH by (congruence || assumption). reflexivity.
Qed.

Lemma join_notin (c sep : ascii) (xs : list pystr) :
  c <> sep -> Forall (fun x => ~ In c x) xs -> ~ In c (join sep xs).
Proof.
  intros Hc. induction xs as [|x [|y t] IH]; intros Hf; [simpl; tauto | |].
  - inversion Hf; subst; assumption.
  - inversion Hf; subst. change (join sep (x :: y :: t)) with (x ++ sep :: join sep (y :: t)).
    rewrite in_app_iff. intros [Hx | [Hs | Hj]]; [tauto | congruence | apply IH; assumption].
Qed.

Lemma startswith_label (k v L : pystr) :
  ~ In ":"%char k -> ~ In ":"%char L ->
  startswith (k ++ ":"%char :: v) (L ++ [":"%char]) = pystr_eqb k L.
Proof.
  revert k; induction L as [|b L IH]; intros k Hk HL.
  - destruct k as [|a k]; cbn [startswith app pystr_eqb].
    + rewrite Ascii.eqb_refl. destruct v; reflexivity.
    + destruct (Ascii.eqb_spec ":"%char a) as [<- | _]; [exfalso; apply Hk; left; reflexivity |].
      reflexivity.
  - destruct k as [|a k]; cbn [startswith app pystr_eqb].
    + destruct (Ascii.eqb_spec b ":"%char) as [-> | _]; [exfalso; apply HL; left; reflexivity |].
      reflexivity.
    + rewrite IH by first [ intros H; apply Hk; right; exact H
                          | intros H; apply HL; right; exact H ].
      destruct (Ascii.eqb_spec b a) as [-> | Hne]; [rewrite Ascii.eqb_refl; reflexivity |].
      destruct (Ascii.eqb_spec a b); [congruence | reflexivity].
Qed.

Lemma split_once_label (k v : pystr) :
  ~ In ":"%char k -> split_once ":"%char (k ++ ":"%char :: v) = [k; v].
Proof.
  induction k as [|a k IH]; intros H; cbn [split_once app].
  - rewrite Ascii.eqb_refl. reflexivity.
  - destruct (Ascii.eqb_spec a ":"%char) as [-> | _]; [exfalso; apply H; left; reflexivity |].
    rewrite IH by (intros Hx; apply H; right; exact Hx). reflexivity.
Qed.

Lemma label_key_no_colon : ~ In ":"%char LABEL_MOUNTED_PATH.
Proof. vm_compute. intuition discriminate. Qed.

Lemma find_mounted_label_pairs (kvs : list (pystr * pystr)) :
  Forall (fun kv => ~ In ":"%char (fst kv)) kvs ->
  find_mounted_label (map label_pair kvs) = label_value kvs.
Proof.
  induction kvs as [|[k v] kvs IH]; intros Hf; [reflexivity |].
  inversion Hf; subst. cbn [fst] in *. cbn [map find_mounted_label label_value].
  change (label_pair (k, v)) with (k ++ ":"%char :: v).
  rewrite startswith_label by (assumption || exact label_key_no_colon).
  destruct (pystr_eqb k LABEL_MOUNTED_PATH); [| apply IH; assumption].
  rewrite split_once_label by assumption. reflexivity.
Qed.

Lemma mounted_path_blob (kvs : list (pystr * pystr)) :
  Forall (fun kv => ~ In ":"%char (fst kv) /\ ~ In " "%char (fst kv) /\ ~ In " "%char (snd kv))
         kvs ->
  mounted_path_of_labels (labels_blob kvs) = label_value kvs.
Proof.
  intros Hf. unfold mounted_path_of_labels, labels_blob.
  assert (Hs : startswith (lit "map[" ++ join " "%char (map label_pair kvs) ++ lit "]")
                          (lit "map[") = true) by apply startswith_app.
  assert (He : endswith (lit "map[" ++ join " "%char (map label_pair kvs) ++ lit "]")
                        (lit "]") = true).
  { unfold endswith. rewrite !rev_app_distr, <- app_assoc. apply startswith_app. }
  rewrite Hs, He. cbn [andb].
  assert (Hsl : slice_to_last 4 (lit "map[" ++ join " "%char (map label_pair kvs) ++ lit "]")
                = join " "%char (map label_pair kvs)).
  { unfold slice_to_last. rewrite !length_app.
    change (length (lit "map[")) with 4%nat. change (length (lit "]")) with 1%nat.
    replace (4 + (length (join " "%char (map label_pair kvs)) + 1) - 1 - 4)%nat
      with (length (join " "%char (map label_pair kvs))) by lia.
    change (skipn 4 (lit "map[" ++ join " "%char (map label_pair kvs) ++ lit "]"))
      with (join " "%char (map label_pair kvs) ++ lit "]").
    rewrite firstn_app, Nat.sub_diag, firstn_all. apply app_nil_r. }
  rewrite Hsl.
  destruct kvs as [|kv kvs']; [reflexivity |].
  rewrite split_on_join.
  - apply find_mounted_label_pairs. eapply Forall_impl; [| exact Hf]. simpl; tauto.
  - discriminate.
  - apply Forall_map. eapply Forall_impl; [| exact Hf].
    intros [k v] [_ [Hk Hv]]. unfold label_pair; cbn [fst snd] in *.
    rewrite in_app_iff. intros [H | [H | H]]; [tauto | discriminate | tauto].
Qed.

Lemma parse_ps_line_nonempty (line : pystr) :
  line <> [] ->
  parse_ps_line line =
  (let parts := split_on "|"%char line in
   if (length parts <? 4)%nat then None
   else Some (mkContainer (take 12 (nth 0 parts [])) (nth 1 parts []) (nth 2 parts [])
                          (mounted_path_of_labels (nth 3 parts [])))).
Proof. destruct line; [congruence | reflexivity]. Qed.

Lemma parse_ps_line_fields (i n s l : pystr) :
  Forall (fun x => ~ In "|"%char x) [i; n; s; l] ->
  parse_ps_line (join "|"%char [i; n; s; l])
  = Some (mkContainer (take 12 i) n s (mounted_path_of_labels l)).
Proof.
  intros Hf. rewrite parse_ps_line_nonempty.
  - rewrite split_on_join by (discriminate || exact Hf). reflexivity.
  - simpl. destruct i; discriminate.
Qed.

Lemma parse_ps_line_short (l : pystr) :
  (length (split_on "|"%char l) <? 4)%nat = true -> parse_ps_line l = None.
Proof.
  destruct l as [|a l]; intros H; [reflexivity |].
  rewrite parse_ps_line_nonempty by discriminate. cbv zeta. rewrite H. reflexivity.
Qed.

Lemma parse_lines_join (ls : list pystr) :
  Forall (fun x => ~ In newline x) ls ->
  parse_ps_lines (split_on newline (join newline ls)) = parse_ps_lines ls.
Proof.
  destruct ls as [|x ls]; intros Hf; [reflexivity |].
  rewrite split_on_join by (discriminate || exact Hf). reflexivity.
Qed.

Lemma lstrip_snoc (s : pystr) (c : ascii) :
  isspace c = true ->
  lstrip (s ++ [c]) = lstrip s ++ [c] \/ (lstrip s = [] /\ lstrip (s ++ [c]) = []).
Proof.
  intros Hc. induction s as [|a s IH]; cbn [lstrip app].
  - rewrite Hc. right. split; reflexivity.
  - destruct (isspace a); [exact IH | left; reflexivity].
Qed.

Lemma rstrip_snoc (t : pystr) (c : ascii) :
  isspace c = true -> rstrip (t ++ [c]) = rstrip t.
Proof. intros Hc. unfold rstrip. rewrite rev_app_distr. cbn [rev app lstrip]. rewrite Hc. reflexivity. Qed.

Lemma strip_trailing_newline (s : pystr) : strip (s ++ [newline]) = strip s.
Proof.
  unfold strip. destruct (lstrip_snoc s newline eq_refl) as [E | [E1 E2]].
  - rewrite E. apply rstrip_snoc. reflexivity.
  - rewrite E1, E2. reflexivity.
Qed.

Lemma labels_blob_notin (c : ascii) (kvs : list (pystr * pystr)) :
  c <> " "%char -> c <> ":"%char -> ~ In c (lit "map[") -> ~ In c (lit "]") ->
  Forall (fun kv => ~ In c (fst kv) /\ ~ In c (snd kv)) kvs ->
  ~ In c (labels_blob kvs).
Proof.
  intros Hsp Hco Hm Hb Hf. unfold labels_blob. rewrite !in_app_iff.
  intros [H | [H | H]]; [tauto | | tauto].
  revert H. apply join_notin; [exact Hsp |].
  apply Forall_map. eapply Forall_impl; [| exact Hf].
  intros [k v] [Hk Hv]. unfold label_pair; cbn [fst snd] in *.
  rewrite in_app_iff. intros [H | [H | H]]; [tauto | congruence | tauto].
Qed.

Ltac free_of_at H c := exact (free_of_notin _ _ c H ltac:(simpl; tauto)).

Lemma parse_rows (rows : list ps_row) :
  forallb row_ok rows = true ->
  Forall (fun x => ~ In newline x) (map row_text rows) /\
  parse_ps_lines (map row_text rows) = expected_containers rows.
Proof.
  induction rows as [|r rows IH]; intros H; [split; [constructor | reflexivity] |].
  cbn [forallb] in H. apply andb_true_iff in H as [Hr Hrest].
  destruct (IH Hrest) as [IHn IHp]. cbn [map].
  destruct r as [i n s kvs | i n s l | l]; cbn [row_ok] in Hr.
  - rewrite !andb_true_iff in Hr. destruct Hr as [[[Hi Hn] Hs] Hkv].
    rewrite forallb_forall in Hkv.
    assert (Hkv' : forall c, In c [":"%char; " "%char; "|"%char; newline] ->
                   In c [" "%char; "|"%char; newline] ->
                   Forall (fun kv => ~ In c (fst kv) /\ ~ In c (snd kv)) kvs).
    { intros c Hc1 Hc2. apply Forall_forall. intros kv Hin.
      specialize (Hkv kv Hin). apply andb_true_iff in Hkv as [Hk Hv].
      split; [exact (free_of_notin _ _ c Hk Hc1) | exact (free_of_notin _ _ c Hv Hc2)]. }
    assert (Hbar : Forall (fun x => ~ In "|"%char x) [i; n; s; labels_blob kvs]).
    { repeat constructor; [free_of_at Hi "|"%char | free_of_at Hn "|"%char
                          | free_of_at Hs "|"%char |].
      apply labels_blob_notin; try discriminate; try (simpl; intuition discriminate).
      apply Hkv'; simpl; tauto. }
    split.
    + constructor; [| exact IHn]. cbn [row_text].
      apply join_notin; [discriminate |].
      repeat constructor; [free_of_at Hi newline | free_of_at Hn newline
                          | free_of_at Hs newline |].
      apply labels_blob_notin; try discriminate; try (simpl; intuition discriminate).
      apply Hkv'; simpl; tauto.
    + cbn [parse_ps_lines row_text expected_containers].
      rewrite parse_ps_line_fields by exact Hbar.
      rewrite mounted_path_blob, IHp; [reflexivity |].
      apply Forall_forall. intros kv Hin.
      specialize (Hkv kv Hin). apply andb_true_iff in Hkv as [Hk Hv].
      split; [free_of_at Hk ":"%char | split; [free_of_at Hk " "%char | free_of_at Hv " "%char]].
  - rewrite !andb_true_iff in Hr. destruct Hr as [[[[Hi Hn] Hs] Hl] Hm].
    split.
    + constructor; [| exact IHn]. cbn [row_text].
      apply join_notin; [discriminate |].
      repeat constructor; [free_of_at Hi newline | free_of_at Hn newline
                          | free_of_at Hs newline | free_of_at Hl newline].
    + cbn [parse_ps_lines row_text expected_containers].
      rewrite parse_ps_line_fields
        by (repeat constructor; [free_of_at Hi "|"%char | free_of_at Hn "|"%char
                                | free_of_at Hs "|"%char | free_of_at Hl "|"%char]).
      unfold map_form in Hm. apply negb_true_iff in Hm.
      unfold mounted_path_of_labels. rewrite Hm, IHp. reflexivity.
  - apply andb_true_iff in Hr as [Hl Hshort].
    split.
    + constructor; [free_of_at Hl newline | exact IHn].
    + cbn [parse_ps_lines row_text expected_containers].
      rewrite parse_ps_line_short by exact Hshort. exact IHp.
Qed.

(** C6: for [ps] output made of lines [id|name|status|map[key:value ...]]
    (fields free of [|] and line breaks, keys free of [:] and spaces, values
    free of spaces), lines whose labels field is not of the [map[...]] form,
    and lines with fewer than four [|]-separated fields, with no white space
    at either end of the whole text: the parser yields, in order, one
    container per line of four fields, whose id is the first field cut to 12
    characters, whose name and status are the second and third fields, and
    whose mounted path is the value of the first mounted-path label (empty
    when there is none or the labels field is not of the [map[...]] form);
    the short lines are skipped. The same holds with the trailing line break
    the engine prints, and [list_containers] returns that list when [ps]
    exits with 0. *)
Theorem ps_output_parsed (rows : list ps_row) :
  forallb row_ok rows = true ->
  strip (ps_text rows) = ps_text rows ->
  parse_ps_output (ps_text rows) = expected_containers rows /\
  parse_ps_output (ps_text rows ++ [newline]) = expected_containers rows /\
  (forall e ro w tr err,
     respond w e (OpPs ro) = mkResult 0 (ps_text rows ++ [newline]) err ->
     Engine.list_containers e ro w tr
     = (tr ++ [EvEngine e (OpPs ro)], Done (expected_containers rows))).
Proof.
  intros Hok Hstrip.
  destruct (parse_rows rows Hok) as [Hnl Hp].
  assert (H1 : parse_ps_output (ps_text rows) = expected_containers rows).
  { unfold parse_ps_output. rewrite Hstrip. unfold ps_text.
    rewrite parse_lines_join by exact Hnl. exact Hp. }
  assert (H2 : parse_ps_output (ps_text rows ++ [newline]) = expected_containers rows).
  { unfold parse_ps_output. rewrite strip_trailing_newline. exact H1. }
  split; [exact H1 | split; [exact H2 |]].
  intros e ro w tr err Hr.
  unfold Engine.list_containers, bind, call, ret. rewrite Hr. cbn [returncode stdout].
  rewrite H2. reflexivity.
Qed.

Definition rows_ex : list ps_row :=
  [WellFormed (lit "0123456789abcdef") (lit "sandboxer-proj-29ccbcbc") (lit "Up 2 minutes")
              [(LABEL_MANAGED, lit "true"); (LABEL_MOUNTED_PATH, lit "/tmp/proj")];
   Malformed (lit "bad|line");
   RawLabels (lit "fedcba9876543210") (lit "sandboxer-other-00000000")
             (lit "Exited (0) 1 hour ago") (lit "<no value>");
   WellFormed (lit "abc") (lit "sandboxer-x-11111111") (lit "Created")
              [(LABEL_MANAGED, lit "true")]].

Lemma ps_output_parsed_witness :
  parse_ps_output (ps_text rows_ex ++ [newline])
  = [mkContainer (lit "0123456789ab") (lit "sandboxer-proj-29ccbcbc") (lit "Up 2 minutes")
                 (lit "/tmp/proj");
     mkContainer (lit "fedcba987654") (lit "sandboxer-other-00000000")
                 (lit "Exited (0) 1 hour ago") [];
     mkContainer (lit "abc") (lit "sandboxer-x-11111111") (lit "Created") []].
Proof.
  assert (H1 : forallb row_ok rows_ex = true) by (vm_compute; reflexivity).
  assert (H2 : strip (ps_text rows_ex) = ps_text rows_ex) by (vm_compute; reflexivity).
  exact (proj1 (proj2 (ps_output_parsed rows_ex H1 H2))).
Defined.

(** ** Further properties of the code *)

(** *** The [list], [stop], [rm], [attach] and [turn-off-claude-websearch] commands *)

Import Commands.

Ltac cmd_steps :=
  cbv beta iota delta [pbind pprint pprint_err pret pexit prun list_cmd list_containers
                       stop rm attach turn_off_claude_websearch stop_container
                       remove_container attach_container exec_in_container].

Definition table_rows (cs : list Container) : list (list pystr) :=
  map (fun c => [id c; name c; status c; mounted_path c]) cs.

Lemma ps_output_parsed_core (rows : list ps_row) :
  forallb row_ok rows = true -> strip (ps_text rows) = ps_text rows ->
  parse_ps_output (ps_text rows) = expected_containers rows /\
  parse_ps_output (ps_text rows ++ [newline]) = expected_containers rows.
Proof.
  intros Hok Hstrip. destruct (parse_rows rows Hok) as [Hnl Hp].
  assert (H1 : parse_ps_output (ps_text rows) = expected_containers rows).
  { unfold parse_ps_output. rewrite Hstrip. unfold ps_text.
    rewrite parse_lines_join by exact Hnl. exact Hp. }
  split; [exact H1 |]. unfold parse_ps_output. rewrite strip_trailing_newline. exact H1.
Qed.

(** X1: [sandboxer list] makes one [ps] call (with [-a] unless [--running]);
    when [ps] fails it prints only that no containers were found and exits
    with 0; when [ps] prints well-formed lines it prints the table of the
    parsed containers' id, name, status and mounted folder, in order, or the
    no-container message when no line has four fields. *)
Theorem list_cmd_reports (running : bool) :
  (forall w, returncode (answer w (ps_argv running)) <> 0 ->
     list_cmd running w [] = ([CCall (ps_argv running); CPrint CMsgNoContainers], Ok tt)) /\
  (forall rows w err,
     forallb row_ok rows = true -> strip (ps_text rows) = ps_text rows ->
     answer w (ps_argv running) = mkResult 0 (ps_text rows ++ [newline]) err ->
     list_cmd running w [] =
     ([CCall (ps_argv running);
       CPrint (match expected_containers rows with
               | [] => CMsgNoContainers
               | cs => CMsgTable (table_rows cs)
               end)], Ok tt)).
Proof.
  split.
  - intros w Hr. cmd_steps. apply Z.eqb_neq in Hr. rewrite Hr. reflexivity.
  - intros rows w err Hok Hs Ha.
    destruct (ps_output_parsed_core rows Hok Hs) as [_ H2].
    cmd_steps. rewrite Ha. cbn [returncode stdout Z.eqb negb]. rewrite H2.
    destruct (expected_containers rows); reflexivity.
Qed.

Lemma find_first {A} (f : A -> bool) (l : list A) (x : A) :
  find f l = Some x ->
  f x = true /\ exists pre post, l = pre ++ x :: post /\ Forall (fun y => f y = false) pre.
Proof.
  induction l as [|y l IH]; simpl; [discriminate |].
  destruct (f y) eqn:Hy.
  - intros H; injection H as <-. split; [exact Hy |]. exists [], l. split; [reflexivity | constructor].
  - intros H. destruct (IH H) as [Hx [pre [post [-> Hf]]]]. split; [exact Hx |].
    exists (y :: pre), post. split; [reflexivity | constructor; assumption].
Qed.

Lemma find_none_forall {A} (f : A -> bool) (l : list A) :
  find f l = None -> Forall (fun y => f y = false) l.
Proof.
  induction l as [|y l IH]; simpl; [constructor |].
  destruct (f y) eqn:Hy; [discriminate |]. intros H. constructor; [exact Hy | apply IH, H].
Qed.

Lemma name_test (n : pystr) (c : Container) :
  (let 'mkContainer _ cname _ _ := c in pystr_eqb cname n) = true <-> name c = n.
Proof. destruct c as [i cn s m]. simpl. apply pystr_eqb_eq. Qed.

(** X4: [find_container_by_name] makes the one call [podman ps ... -a]; a
    container it returns has the requested name and is the first one of
    that name in the parsed listing; it returns [None] only when [ps] fails
    or no listed container has that name. *)
Theorem find_container_by_name_first (n : pystr) (w : pworld) :
  fst (find_container_by_name n w []) = [CCall (ps_argv false)] /\
  (forall c, snd (find_container_by_name n w []) = Ok (Some c) ->
     returncode (answer w (ps_argv false)) = 0 /\ name c = n /\
     exists pre post,
       parse_ps_output (stdout (answer w (ps_argv false))) = pre ++ c :: post /\
       Forall (fun c' => name c' <> n) pre) /\
  (snd (find_container_by_name n w []) = Ok None ->
     returncode (answer w (ps_argv false)) <> 0 \/
     Forall (fun c => name c <> n) (parse_ps_output (stdout (answer w (ps_argv false))))).
Proof.
  unfold find_container_by_name. cmd_steps.
  destruct (returncode (answer w (ps_argv false)) =? 0) eqn:Hr; cbn [negb fst snd].
  - apply Z.eqb_eq in Hr. split; [reflexivity | split].
    + intros c Hc. injection Hc as Hc.
      destruct (find_first _ _ _ Hc) as [Hn [pre [post [Hl Hpre]]]].
      split; [exact Hr | split; [apply name_test, Hn |]].
      exists pre, post. split; [exact Hl |].
      eapply Forall_impl; [| exact Hpre]. intros y Hy Heq.
      apply name_test in Heq. cbv beta in Hy. congruence.
    + intros Hc. injection Hc as Hc. right.
      eapply Forall_impl; [| exact (find_none_forall _ _ Hc)]. intros y Hy Heq.
      apply name_test in Heq. cbv beta in Hy. congruence.
  - apply Z.eqb_neq in Hr. split; [reflexivity | split].
    + intros c Hc. discriminate.
    + intros _. left. exact Hr.
Qed.

(** *** Parsed fields for any [ps] output *)

Lemma split_on_sub (c : ascii) (s x : pystr) :
  In x (split_on c s) -> forall d, In d x -> In d s /\ d <> c.
Proof.
  revert x; induction s as [|a s IH]; intros x Hx d Hd; cbn [split_on] in Hx.
  - destruct Hx as [<- | []]. destruct Hd.
  - destruct (Ascii.eqb_spec a c) as [-> | Hne].
    + destruct Hx as [<- | Hx]; [destruct Hd |].
      destruct (IH x Hx d Hd) as [H1 H2]. split; [right; exact H1 | exact H2].
    + destruct (split_on c s) as [|y ys] eqn:Es.
      * destruct Hx as [<- | []]. destruct Hd as [<- | []]. split; [left; reflexivity | exact Hne].
      * destruct Hx as [<- | Hx].
        -- destruct Hd as [<- | Hd]; [split; [left; reflexivity | exact Hne] |].
           destruct (IH y (or_introl eq_refl) d Hd) as [H1 H2]. split; [right; exact H1 | exact H2].
        -- destruct (IH x (or_intror Hx) d Hd) as [H1 H2]. split; [right; exact H1 | exact H2].
Qed.

Lemma split_once_sub (c : ascii) (s x v : pystr) (rest : list pystr) :
  split_once c s = x :: v :: rest -> forall d, In d v -> In d s.
Proof.
  revert x v rest; induction s as [|a s IH]; intros x v rest H d Hd; cbn [split_once] in H.
  - discriminate.
  - destruct (Ascii.eqb a c).
    + injection H as _ <- _. right. exact Hd.
    + destruct (split_once c s) as [|y ys] eqn:Es; [discriminate |].
      injection H as _ Hys. subst ys. right. exact (IH y v rest eq_refl d Hd).
Qed.

Lemma find_mounted_label_sub (items : list pystr) (d : ascii) :
  In d (find_mounted_label items) -> exists x, In x items /\ In d x.
Proof.
  induction items as [|x items IH]; cbn [find_mounted_label]; [intros [] |].
  destruct (startswith x (LABEL_MOUNTED_PATH ++ [":"%char])).
  - destruct (split_once ":"%char x) as [|y [|v rest]] eqn:E; try (intros []).
    intros Hd. exists x. split; [left; reflexivity | exact (split_once_sub _ _ _ _ _ E d Hd)].
  - intros Hd. destruct (IH Hd) as [y [Hy Hdy]]. exists y. split; [right; exact Hy | exact Hdy].
Qed.

Lemma in_firstn_sub {A} (n : nat) (l : list A) (x : A) : In x (firstn n l) -> In x l.
Proof. intros H. rewrite <- (firstn_skipn n l). apply in_or_app. left. exact H. Qed.

Lemma in_skipn_sub {A} (n : nat) (l : list A) (x : A) : In x (skipn n l) -> In x l.
Proof. intros H. rewrite <- (firstn_skipn n l). apply in_or_app. right. exact H. Qed.

Lemma mounted_path_sub (l : pystr) (d : ascii) :
  In d (mounted_path_of_labels l) -> In d l /\ d <> " "%char.
Proof.
  unfold mounted_path_of_labels.
  destruct (startswith l (lit "map[") && endswith l (lit "]")); [| intros []].
  intros Hd. destruct (find_mounted_label_sub _ _ Hd) as [x [Hx Hdx]].
  destruct (split_on_sub _ _ _ Hx d Hdx) as [Hin Hsp]. split; [| exact Hsp].
  unfold slice_to_last in Hin. apply in_firstn_sub, in_skipn_sub in Hin. exact Hin.
Qed.

Lemma nth_sub (k : nat) (parts : list pystr) (d : ascii) :
  In d (nth k parts []) -> exists x, In x parts /\ In d x.
Proof.
  destruct (nth_in_or_default k parts []) as [Hin | Hdef].
  - intros Hd. exists (nth k parts []). split; assumption.
  - rewrite Hdef. intros [].
Qed.

Lemma parse_ps_line_sub (line : pystr) (c : Container) :
  parse_ps_line line = Some c ->
  (length (id c) <= 12)%nat /\
  (forall d, In d (id c) \/ In d (name c) \/ In d (status c) \/ In d (mounted_path c) ->
     In d line /\ d <> "|"%char) /\
  ~ In " "%char (mounted_path c).
Proof.
  destruct line as [|a l]; [discriminate |].
  rewrite parse_ps_line_nonempty by discriminate. cbv zeta.
  destruct (length (split_on "|"%char (a :: l)) <? 4)%nat; [discriminate |].
  intros H; match type of H with Some ?t = Some c => replace c with t by congruence end.
  assert (Hpart : forall k d, In d (nth k (split_on "|"%char (a :: l)) []) ->
                  In d (a :: l) /\ d <> "|"%char).
  { intros k d Hd. destruct (nth_sub _ _ _ Hd) as [x [Hx Hdx]].
    exact (split_on_sub _ _ _ Hx d Hdx). }
  split; [| split].
  - exact (firstn_le_length 12 _).
  - intros d [Hd | [Hd | [Hd | Hd]]].
    + apply (Hpart 0%nat). exact (in_firstn_sub _ _ _ Hd).
    + exact (Hpart 1%nat d Hd).
    + exact (Hpart 2%nat d Hd).
    + apply (Hpart 3%nat). exact (proj1 (mounted_path_sub _ _ Hd)).
  - intros Hd. exact (proj2 (mounted_path_sub _ _ Hd) eq_refl).
Qed.

Lemma parse_ps_lines_in (ls : list pystr) (c : Container) :
  In c (parse_ps_lines ls) -> exists line, In line ls /\ parse_ps_line line = Some c.
Proof.
  induction ls as [|line ls IH]; cbn [parse_ps_lines]; [intros [] |].
  destruct (parse_ps_line line) as [c'|] eqn:E.
  - intros [<- | H]; [exists line; split; [left; reflexivity | exact E] |].
    destruct (IH H) as [l [Hl Hp]]. exists l. split; [right; exact Hl | exact Hp].
  - intros H. destruct (IH H) as [l [Hl Hp]]. exists l. split; [right; exact Hl | exact Hp].
Qed.

(** X5: whatever [ps] prints, every container [list_containers] parses has
    an id of at most 12 characters, an id, name, status and mounted path
    free of [|] and of line breaks, and a mounted path free of spaces. *)
Theorem parse_ps_output_fields (s : pystr) :
  Forall (fun c =>
            (length (id c) <= 12)%nat /\
            Forall (fun f => ~ In "|"%char f /\ ~ In newline f)
                   [id c; name c; status c; mounted_path c] /\
            ~ In " "%char (mounted_path c))
         (parse_ps_output s).
Proof.
  apply Forall_forall. intros c Hc. unfold parse_ps_output in Hc.
  destruct (parse_ps_lines_in _ _ Hc) as [line [Hl Hp]].
  destruct (parse_ps_line_sub _ _ Hp) as [Hlen [Hch Hsp]].
  assert (Hno : forall d, In d line -> d <> newline)
    by (intros d Hd; exact (proj2 (split_on_sub _ _ _ Hl d Hd))).
  split; [exact Hlen | split; [| exact Hsp]].
  repeat constructor; intros Hd;
    match type of Hd with
    | In ?d _ =>
        let H := fresh in
        assert (H : In d line /\ d <> "|"%char) by (apply Hch; tauto);
        destruct H as [H1 H2]; first [ apply H2; reflexivity | apply (Hno _ H1); reflexivity ]
    end.
Qed.

(** *** What [run] hands to the engine *)

Lemma run_reaches_create_ex (w : world) (a : RunArgs) :
  (exists tr o, exec_run w a = (tr, o) /\ no_create tr) \/
  (exists tr, exec_run w a
              = create a (target_name a) (expose_ports a && negb (no_internet a)) w tr /\
              no_create tr).
Proof.
  unfold exec_run, run.
  destruct (valid_engine (engine a)); cbn [negb];
    [| left; eexists _, _; split; [reflexivity | no_create_solve]].
  destruct (1 <? network_flags a)%nat;
    [left; eexists _, _; split; [reflexivity | no_create_solve] |].
  destruct (expose_ports a), (no_internet a); cbn [andb negb];
    cbv beta iota delta [bind print ret]; rewrite find_container_by_name_call;
    destruct (found w (engine a) (target_name a)) as [c|].
  all: try (right; eexists _; split; [reflexivity | no_create_solve]).
  all: repeat (destr_ifs; monad_steps).
  all: first [ left; eexists _, _; split; [reflexivity | no_create_solve]
             | right; eexists _; split; [reflexivity | no_create_solve] ].
Qed.

Lemma create_interactive (w : world) (a : RunArgs) (n : pystr) (ex : bool) (tr : list event) :
  detach a = false ->
  create a n ex w tr =
  (tr ++ [EvPrint (MsgStartingInteractive (folder a) (container_dir a)); EvPrint MsgTypeExit;
          EvEngine (engine a) (create_op a n ex)], Done tt).
Proof.
  intros Hd. unfold create, create_op. rewrite Hd.
  cbv beta iota zeta delta [bind print ret call Engine.run_container].
  rewrite <- !app_assoc. reflexivity.
Qed.

Lemma create_calls (w : world) (a : RunArgs) (n : pystr) (ex : bool) (tr : list event) :
  exists post, fst (create a n ex w tr) = tr ++ post /\
    (forall op, In op (engine_calls post) ->
       op = OpPull (image a) \/ op = create_op a n ex) /\
    ~ In EvConfirm post.
Proof.
  destruct (detach a) eqn:Hd.
  - rewrite (create_detached w a n ex tr Hd). cbv zeta.
    destruct (returncode (respond w (engine a) (OpPull (image a))) =? 0);
      [destruct (returncode (respond w (engine a) (create_op a n ex)) =? 0) |];
      (eexists; split;
       [ simpl fst; rewrite <- ?app_assoc; reflexivity
       | split; [ intros op Hop; simpl in Hop; intuition congruence | simpl; intuition discriminate ] ]).
  - rewrite (create_interactive w a n ex tr Hd).
    eexists; split; [reflexivity |].
    split; [intros op Hop; simpl in Hop; intuition congruence | simpl; intuition discriminate].
Qed.


(** X7: in interactive mode [run] never pulls an image, and once it has
    started the container it returns normally (exit status 0), whatever the
    container's own exit status. *)
Theorem run_interactive_no_pull (w : world) (a : RunArgs) :
  detach a = false ->
  (forall i, ~ In (OpPull i) (engine_calls (fst (exec_run w a)))) /\
  (forall d argv ps, In (OpRun d argv ps) (engine_calls (fst (exec_run w a))) ->
     snd (exec_run w a) = Done tt).
Proof.
  intros Hd.
  destruct (run_reaches_create_ex w a) as [[tr [o [E Hnc]]] | [tr [E Hnc]]];
    rewrite E; simpl fst; simpl snd.
  - split; [intros i Hin | intros d argv ps Hin]; specialize (Hnc _ Hin); discriminate.
  - rewrite (create_interactive w a _ _ tr Hd). simpl fst; simpl snd.
    rewrite engine_calls_app. simpl.
    split; [| intros; reflexivity].
    intros i Hin. apply in_app_or in Hin. destruct Hin as [Hin | [Hin | []]].
    + specialize (Hnc _ Hin). discriminate.
    + unfold create_op in Hin. discriminate.
Qed.

Lemma create_no_confirm (w : world) (a : RunArgs) (n : pystr) (ex : bool) (tr : list event) :
  In EvConfirm (fst (create a n ex w tr)) -> In EvConfirm tr.
Proof.
  destruct (create_calls w a n ex tr) as [post [E [_ Hc]]]. rewrite E, in_app_iff.
  intros [H | H]; [exact H | contradiction].
Qed.

Lemma effective_expose (a : RunArgs) :
  (if expose_ports a && no_internet a then false else expose_ports a)
  = expose_ports a && negb (no_internet a).
Proof. destruct (expose_ports a), (no_internet a); reflexivity. Qed.

(** X8: [run] asks for confirmation only when a stopped container of the
    target name exists and [--force] is not given; in particular it never
    asks with [--force], nor when the name is free or the container runs. *)
Theorem run_confirms_only_stopped (w : world) (a : RunArgs) :
  In EvConfirm (fst (exec_run w a)) ->
  force a = false /\
  exists c, found w (engine a) (target_name a) = Some c /\ is_running (status c) = false.
Proof.
  intros Hin.
  destruct (valid_engine (engine a)) eqn:Hv.
  2: { unfold exec_run, run in Hin. rewrite Hv in Hin. simpl in Hin. intuition discriminate. }
  destruct (Nat.le_gt_cases (network_flags a) 1) as [Hf | Hf].
  2: { unfold exec_run, run in Hin. rewrite Hv in Hin. apply Nat.ltb_lt in Hf.
       cbn [negb] in Hin. rewrite Hf in Hin. simpl in Hin. intuition discriminate. }
  rewrite run_unfold in Hin by assumption. cbv zeta in Hin.
  destruct (found w (engine a) (target_name a)) as [c|] eqn:Hfound.
  - destruct (is_running (status c)) eqn:Hr.
    + exfalso. revert Hin. monad_steps. destr_ifs; simpl; intuition discriminate.
    + destruct (force a) eqn:Hfo.
      * exfalso. revert Hin. monad_steps.
        destr_ifs; intros Hin; try apply create_no_confirm in Hin; simpl in Hin;
          intuition discriminate.
      * split; [reflexivity | exists c; split; [reflexivity | exact Hr]].
  - exfalso. apply create_no_confirm in Hin.
    destruct (expose_ports a && no_internet a); simpl in Hin; intuition discriminate.
Qed.

Lemma find_name_absent (n : pystr) (l : list Container) :
  Forall (fun c => name c <> n) l ->
  find (fun c => let 'mkContainer _ cname _ _ := c in pystr_eqb cname n) l = None.
Proof.
  induction 1 as [|c l Hc _ IH]; [reflexivity |]. cbn [find].
  destruct (let 'mkContainer _ cname _ _ := c in pystr_eqb cname n) eqn:E.
  - apply name_test in E. contradiction.
  - exact IH.
Qed.

(** X9: when the [ps] listing succeeds and shows no container of the target
    name, and [--detach] is given, [run] lists the containers, pulls the
    image and creates the container; when both engine calls succeed it
    prints the first twelve characters of the new container's id and ends
    normally. *)
Theorem run_fresh_detached (w : world) (a : RunArgs)
  (Hv : valid_engine (engine a) = true) (Hf : (network_flags a <= 1)%nat)
  (Hps : returncode (respond w (engine a) (OpPs false)) = 0)
  (Hnone : Forall (fun c => name c <> target_name a)
                  (parse_ps_output (stdout (respond w (engine a) (OpPs false)))))
  (Hd : detach a = true)
  (Hpull : returncode (respond w (engine a) (OpPull (image a))) = 0)
  (Hrun : returncode (respond w (engine a)
            (create_op a (target_name a) (expose_ports a && negb (no_internet a)))) = 0) :
  exec_run w a =
  ((if expose_ports a && no_internet a then [EvPrint MsgPortsIgnored] else []) ++
   [EvEngine (engine a) (OpPs false);
    EvPrint (MsgStarting (folder a) (container_dir a));
    EvEngine (engine a) (OpPull (image a));
    EvEngine (engine a) (create_op a (target_name a) (expose_ports a && negb (no_internet a)));
    EvPrint (MsgStarted (take 12 (strip (stdout (respond w (engine a)
       (create_op a (target_name a) (expose_ports a && negb (no_internet a))))))))],
   Done tt).
Proof.
  assert (Hfound : found w (engine a) (target_name a) = None).
  { unfold found. rewrite Hps. cbn [Z.eqb]. apply find_name_absent, Hnone. }
  rewrite run_unfold by assumption. cbv zeta. rewrite Hfound, effective_expose.
  rewrite create_detached by exact Hd. cbv zeta. rewrite Hpull, Hrun. cbn [Z.eqb].
  rewrite <- !app_assoc. reflexivity.
Qed.

(** X10: when a stopped container of the target name exists and either
    [--force] is given or the user confirms, and its removal succeeds, [run]
    goes on to create the container anew, after exactly two engine calls:
    the listing and the removal of that name. *)
Theorem run_replaces_stopped (w : world) (a : RunArgs) (c : Container)
  (Hv : valid_engine (engine a) = true) (Hf : (network_flags a <= 1)%nat)
  (Hfound : found w (engine a) (target_name a) = Some c)
  (Hstopped : is_running (status c) = false)
  (Hgo : force a = true \/ confirm_answer w = true)
  (Hrm : returncode (respond w (engine a) (OpRm (target_name a))) = 0) :
  exists tr, exec_run w a =
             create a (target_name a) (expose_ports a && negb (no_internet a)) w tr /\
             engine_calls tr = [OpPs false; OpRm (target_name a)].
Proof.
  rewrite run_unfold by assumption. cbv zeta. rewrite Hfound, Hstopped, effective_expose.
  destruct (force a) eqn:Hfo.
  - monad_steps. rewrite Hrm. cbn [Z.eqb negb].
    eexists; split; [reflexivity |].
    destruct (expose_ports a && no_internet a); reflexivity.
  - destruct Hgo as [Hgo | Hgo]; [discriminate |].
    monad_steps. rewrite Hgo. simpl. rewrite Hrm. cbn [Z.eqb negb].
    eexists; split; [reflexivity |].
    destruct (expose_ports a && no_internet a); reflexivity.
Qed.

(** *** Concrete inputs for the further properties *)

Definition pw_fail : pworld := mkPWorld (fun _ => mkResult 1 [] (lit "podman failed")).
Definition pw_out (out : pystr) : pworld := mkPWorld (fun _ => mkResult 0 out []).

Ltac pick_in := vm_compute; repeat (first [left; reflexivity | right]).

Lemma list_cmd_reports_witness :
  list_cmd true pw_fail [] = ([CCall (ps_argv true); CPrint CMsgNoContainers], Ok tt) /\
  list_cmd false (pw_out (ps_text rows_ex ++ [newline])) [] =
  ([CCall (ps_argv false);
    CPrint (match expected_containers rows_ex with
            | [] => CMsgNoContainers
            | cs => CMsgTable (table_rows cs)
            end)], Ok tt).
Proof.
  assert (H1 : returncode (answer pw_fail (ps_argv true)) <> 0) by (vm_compute; discriminate).
  assert (H2 : forallb row_ok rows_ex = true) by (vm_compute; reflexivity).
  assert (H3 : strip (ps_text rows_ex) = ps_text rows_ex) by (vm_compute; reflexivity).
  assert (H4 : answer (pw_out (ps_text rows_ex ++ [newline])) (ps_argv false)
               = mkResult 0 (ps_text rows_ex ++ [newline]) []) by reflexivity.
  split.
  - exact (proj1 (list_cmd_reports true) pw_fail H1).
  - exact (proj2 (list_cmd_reports false) rows_ex _ [] H2 H3 H4).
Defined.

Lemma find_container_by_name_first_witness :
  (exists c, snd (find_container_by_name (lit "sandboxer-x-11111111")
                    (pw_out (ps_text rows_ex ++ [newline])) []) = Ok (Some c) /\
             name c = lit "sandboxer-x-11111111") /\
  (returncode (answer pw_fail (ps_argv false)) <> 0 \/
   Forall (fun c => name c <> lit "sandboxer-y")
          (parse_ps_output (stdout (answer pw_fail (ps_argv false))))).
Proof.
  set (w := pw_out (ps_text rows_ex ++ [newline])).
  set (c := mkContainer (lit "abc") (lit "sandboxer-x-11111111") (lit "Created") []).
  assert (H1 : snd (find_container_by_name (lit "sandboxer-x-11111111") w []) = Ok (Some c))
    by (vm_compute; reflexivity).
  assert (H2 : snd (find_container_by_name (lit "sandboxer-y") pw_fail []) = Ok None)
    by (vm_compute; reflexivity).
  split.
  - exists c. split; [exact H1 |].
    exact (proj1 (proj2 (proj1 (proj2 (find_container_by_name_first _ w)) c H1))).
  - exact (proj2 (proj2 (find_container_by_name_first _ pw_fail)) H2).
Defined.


Lemma run_interactive_no_pull_witness :
  (forall i, ~ In (OpPull i) (engine_calls (fst (exec_run (scenario [] 0 0 0 true)
                                                           (args_for false false))))) /\
  snd (exec_run (scenario [] 0 0 0 true) (args_for false false)) = Done tt.
Proof.
  assert (Hd : detach (args_for false false) = false) by reflexivity.
  destruct (run_interactive_no_pull (scenario [] 0 0 0 true) (args_for false false) Hd)
    as [H1 H2].
  split; [exact H1 |].
  match eval vm_compute in
        (engine_calls (fst (exec_run (scenario [] 0 0 0 true) (args_for false false))))
  with context [OpRun ?d ?v ?p] => apply (H2 d v p) end.
  pick_in.
Defined.

Lemma run_confirms_only_stopped_witness :
  In EvConfirm (fst (exec_run (world_stopped 0 0 true) (args_for false false))) /\
  force (args_for false false) = false /\
  exists c, found (world_stopped 0 0 true) (engine (args_for false false))
                  (target_name (args_for false false)) = Some c /\
            is_running (status c) = false.
Proof.
  assert (H : In EvConfirm (fst (exec_run (world_stopped 0 0 true) (args_for false false))))
    by pick_in.
  split; [exact H | exact (run_confirms_only_stopped _ _ H)].
Defined.

Lemma run_fresh_detached_witness :
  returncode (respond (scenario [] 0 0 0 true) (engine (args_for true false)) (OpPs false)) = 0 /\
  snd (exec_run (scenario [] 0 0 0 true) (args_for true false)) = Done tt.
Proof.
  set (w := scenario [] 0 0 0 true). set (a := args_for true false).
  assert (H1 : valid_engine (engine a) = true) by (vm_compute; reflexivity).
  assert (H2 : (network_flags a <= 1)%nat) by (vm_compute; lia).
  assert (H3 : returncode (respond w (engine a) (OpPs false)) = 0) by reflexivity.
  assert (H3' : Forall (fun c => name c <> target_name a)
                       (parse_ps_output (stdout (respond w (engine a) (OpPs false)))))
    by (vm_compute; constructor).
  assert (H4 : detach a = true) by reflexivity.
  assert (H5 : returncode (respond w (engine a) (OpPull (image a))) = 0) by reflexivity.
  assert (H6 : returncode (respond w (engine a)
                 (create_op a (target_name a) (expose_ports a && negb (no_internet a)))) = 0)
    by reflexivity.
  split; [exact H3 |].
  rewrite (run_fresh_detached w a H1 H2 H3 H3' H4 H5 H6). reflexivity.
Defined.

Lemma run_replaces_stopped_witness :
  exists tr, exec_run (world_stopped 0 0 false) (args_for true true) =
             create (args_for true true) (target_name (args_for true true))
                    (expose_ports (args_for true true) &&
                     negb (no_internet (args_for true true)))
                    (world_stopped 0 0 false) tr /\
             engine_calls tr = [OpPs false; OpRm (target_name (args_for true true))].
Proof.
  set (w := world_stopped 0 0 false). set (a := args_for true true).
  assert (H1 : valid_engine (engine a) = true) by (vm_compute; reflexivity).
  assert (H2 : (network_flags a <= 1)%nat) by (vm_compute; lia).
  assert (H3 : found w (engine a) (target_name a) = Some container_stopped)
    by (vm_compute; reflexivity).
  assert (H4 : is_running (status container_stopped) = false) by (vm_compute; reflexivity).
  assert (H5 : force a = true \/ confirm_answer w = true) by (left; reflexivity).
  assert (H6 : returncode (respond w (engine a) (OpRm (target_name a))) = 0) by reflexivity.
  exact (run_replaces_stopped w a container_stopped H1 H2 H3 H4 H5 H6).
Defined.

(** *** The mounted-path label read back from [podman ps] *)

Lemma mounted_path_wrapped (content : pystr) :
  mounted_path_of_labels (lit "map[" ++ content ++ lit "]") =
  find_mounted_label (split_on " "%char content).
Proof.
  unfold mounted_path_of_labels.
  assert (Hs : startswith (lit "map[" ++ content ++ lit "]") (lit "map[") = true)
    by apply startswith_app.
  assert (He : endswith (lit "map[" ++ content ++ lit "]") (lit "]") = true).
  { unfold endswith. rewrite !rev_app_distr, <- app_assoc. apply startswith_app. }
  rewrite Hs, He. cbn [andb].
  assert (Hsl : slice_to_last 4 (lit "map[" ++ content ++ lit "]") = content).
  { unfold slice_to_last. rewrite !length_app.
    change (length (lit "map[")) with 4%nat. change (length (lit "]")) with 1%nat.
    replace (4 + (length content + 1) - 1 - 4)%nat with (length content) by lia.
    change (skipn 4 (lit "map[" ++ content ++ lit "]")) with (content ++ lit "]").
    rewrite firstn_app, Nat.sub_diag, firstn_all. apply app_nil_r. }
  rewrite Hsl. reflexivity.
Qed.

Lemma split_on_join_prefix (c : ascii) (pre : list pystr) (x : pystr) (post : list pystr) :
  Forall (fun y => ~ In c y) pre ->
  split_on c (join c (pre ++ x :: post)) = pre ++ split_on c (join c (x :: post)).
Proof.
  induction pre as [|y pre IH]; intros Hf; [reflexivity |].
  inversion Hf; subst.
  assert (Hj : join c ((y :: pre) ++ x :: post) = y ++ c :: join c (pre ++ x :: post))
    by (destruct pre; reflexivity).
  rewrite Hj, split_on_app by assumption. rewrite IH by assumption. reflexivity.
Qed.

Lemma split_on_head (c : ascii) (s : pystr) :
  exists rest, split_on c s = take_until (fun y => Ascii.eqb y c) s :: rest.
Proof.
  induction s as [|x s [rest IH]]; [exists []; reflexivity |].
  cbn [split_on take_until]. destruct (Ascii.eqb x c).
  - exists (split_on c s). reflexivity.
  - rewrite IH. exists rest. reflexivity.
Qed.

Lemma take_until_prefix (stop : ascii -> bool) (p s : pystr) :
  Forall (fun y => stop y = false) p -> take_until stop (p ++ s) = p ++ take_until stop s.
Proof.
  induction p as [|y p IH]; intros Hf; [reflexivity |].
  inversion Hf; subst. cbn [app take_until]. rewrite H1, IH by assumption. reflexivity.
Qed.

Lemma take_until_stopped (stop : ascii -> bool) (f t : pystr) :
  (t = [] \/ exists y r, t = y :: r /\ stop y = true) ->
  take_until stop (f ++ t) = take_until stop f.
Proof.
  intros Ht. induction f as [|y f IH]; cbn [app take_until].
  - destruct Ht as [-> | [y [r [-> Hy]]]]; [reflexivity | cbn [take_until]; rewrite Hy; reflexivity].
  - rewrite IH. reflexivity.
Qed.

Lemma find_mounted_label_skip (kvs : list (pystr * pystr)) (items : list pystr) :
  Forall (fun kv => ~ In ":"%char (fst kv) /\ pystr_eqb (fst kv) LABEL_MOUNTED_PATH = false) kvs ->
  find_mounted_label (map label_pair kvs ++ items) = find_mounted_label items.
Proof.
  induction kvs as [|[k v] kvs IH]; intros Hf; [reflexivity |].
  inversion Hf as [|? ? [Hk Hne] Hrest]; subst. cbn [fst] in Hk, Hne.
  cbn [map app find_mounted_label].
  change (label_pair (k, v)) with (k ++ ":"%char :: v).
  rewrite startswith_label by (assumption || exact label_key_no_colon).
  rewrite Hne. apply IH. exact Hrest.
Qed.

Lemma label_key_no_space : Forall (fun y => Ascii.eqb y " "%char = false)
                                  (LABEL_MOUNTED_PATH ++ [":"%char]).
Proof. vm_compute. repeat constructor. Qed.

Lemma pystr_eqb_refl_sub (s : pystr) : pystr_eqb s s = true.
Proof. induction s as [|x s IH]; [reflexivity |]. simpl. rewrite Ascii.eqb_refl. exact IH. Qed.

(** X11: the mounted path that [list_containers] reads back from the labels
    field is the folder's value cut at its first space, whatever labels
    follow, as long as the labels before it are plain [key:value] pairs with
    other keys; a folder path without a space is read back unchanged. *)
Theorem mounted_path_label_round_trip (kvs1 kvs2 : list (pystr * pystr)) (folder : pystr) :
  Forall (fun kv => ~ In ":"%char (fst kv) /\ ~ In " "%char (fst kv) /\
                    ~ In " "%char (snd kv) /\
                    pystr_eqb (fst kv) LABEL_MOUNTED_PATH = false) kvs1 ->
  mounted_path_of_labels (labels_blob (kvs1 ++ (LABEL_MOUNTED_PATH, folder) :: kvs2)) =
  take_until (fun y => Ascii.eqb y " "%char) folder /\
  (~ In " "%char folder ->
   mounted_path_of_labels (labels_blob (kvs1 ++ (LABEL_MOUNTED_PATH, folder) :: kvs2)) =
   folder).
Proof.
  intros Hf.
  assert (Hmain : mounted_path_of_labels (labels_blob (kvs1 ++ (LABEL_MOUNTED_PATH, folder) :: kvs2)) =
                  take_until (fun y => Ascii.eqb y " "%char) folder).
  { unfold labels_blob. rewrite mounted_path_wrapped, map_app. cbn [map].
    rewrite split_on_join_prefix.
    2: { apply Forall_map. eapply Forall_impl; [| exact Hf].
         intros [k v] [_ [Hk [Hv _]]]. unfold label_pair; cbn [fst snd] in *.
         rewrite in_app_iff. intros [H | [H | H]]; [tauto | discriminate | tauto]. }
    rewrite find_mounted_label_skip.
    2: { eapply Forall_impl; [| exact Hf]. intros kv [H1 [_ [_ H4]]]; split; assumption. }
    destruct (split_on_head " "%char (join " "%char (label_pair (LABEL_MOUNTED_PATH, folder) ::
                                                     map label_pair kvs2))) as [rest Hh].
    rewrite Hh.
    assert (Ht : exists t, join " "%char (label_pair (LABEL_MOUNTED_PATH, folder) ::
                                          map label_pair kvs2)
                           = (LABEL_MOUNTED_PATH ++ [":"%char]) ++ folder ++ t /\
                           (t = [] \/ exists y r, t = y :: r /\ Ascii.eqb y " "%char = true)).
    { change (label_pair (LABEL_MOUNTED_PATH, folder)) with (LABEL_MOUNTED_PATH ++ ":"%char :: folder).
      destruct (map label_pair kvs2) as [|z zs].
      - exists []. split; [| left; reflexivity].
        cbn [join]. rewrite app_nil_r, <- app_assoc. reflexivity.
      - exists (" "%char :: join " "%char (z :: zs)). split.
        + cbn [join]. rewrite <- !app_assoc. reflexivity.
        + right. do 2 eexists. split; [reflexivity | reflexivity]. }
    destruct Ht as [t [Hj Ht]]. rewrite Hj.
    rewrite take_until_prefix by exact label_key_no_space.
    rewrite take_until_stopped by exact Ht.
    cbn [find_mounted_label]. rewrite <- app_assoc. cbn [app].
    rewrite startswith_label by exact label_key_no_colon.
    rewrite pystr_eqb_refl_sub.
    rewrite split_once_label by exact label_key_no_colon. reflexivity. }
  split; [exact Hmain |].
  intros Hsp. rewrite Hmain. clear Hmain.
  induction folder as [|x folder IH]; [reflexivity |].
  cbn [take_until]. destruct (Ascii.eqb_spec x " "%char) as [-> | _];
    [exfalso; apply Hsp; left; reflexivity |].
  rewrite IH by (intros H; apply Hsp; right; exact H). reflexivity.
Qed.

Lemma mounted_path_label_round_trip_witness :
  mounted_path_of_labels
    (labels_blob ([(LABEL_MANAGED, lit "true")] ++
                  (LABEL_MOUNTED_PATH, lit "/home/me/my project") :: [(lit "z", lit "1")]))
  = lit "/home/me/my".
Proof.
  assert (H : Forall (fun kv => ~ In ":"%char (fst kv) /\ ~ In " "%char (fst kv) /\
                                ~ In " "%char (snd kv) /\
                                pystr_eqb (fst kv) LABEL_MOUNTED_PATH = false)
                     [(LABEL_MANAGED, lit "true")]).
  { constructor; [| constructor]. vm_compute. intuition discriminate. }
  exact (proj1 (mounted_path_label_round_trip _ _ (lit "/home/me/my project") H)).
Defined.

(** *** The two firewall scripts side by side *)

(** The accept rules of a script, one per line that holds [-j ACCEPT],
    without their indentation. *)
Definition accept_rules (script : pystr) : list pystr :=
  map strip (filter (fun l => contains l ACCEPT_RULE) (script_lines script)).

(** X12: the only-dev script has the default-deny line, every accept rule
    comes before it, and its accept rules are the same six, in the same
    order, as the only-claude script's: loopback out and in, established
    connections, DNS over UDP and TCP, and HTTPS to a resolved address. *)
Theorem firewall_scripts_same_rules :
  (exists j, nth_error (script_lines _generate_dev_only_firewall_script) j =
             Some (lit "sudo iptables -A OUTPUT -j DROP")) /\
  (forall i j l l',
     nth_error (script_lines _generate_dev_only_firewall_script) i = Some l ->
     contains l ACCEPT_RULE = true ->
     nth_error (script_lines _generate_dev_only_firewall_script) j = Some l' ->
     contains l' DROP_RULE = true -> (i < j)%nat) /\
  accept_rules _generate_dev_only_firewall_script =
  accept_rules _generate_claude_only_firewall_script /\
  accept_rules _generate_claude_only_firewall_script =
  [lit "sudo iptables -A OUTPUT -o lo -j ACCEPT";
   lit "sudo iptables -A INPUT -i lo -j ACCEPT";
   lit "sudo iptables -A OUTPUT -m state --state ESTABLISHED,RELATED -j ACCEPT";
   lit "sudo iptables -A OUTPUT -p udp --dport 53 -j ACCEPT";
   lit "sudo iptables -A OUTPUT -p tcp --dport 53 -j ACCEPT";
   lit "sudo iptables -A OUTPUT -p tcp --dport 443 -d $ip -j ACCEPT"].
Proof.
  split; [| split; [| split]].
  - exists (length (script_lines _generate_dev_only_firewall_script) - 12)%nat.
    vm_compute. reflexivity.
  - apply accepts_before_drop_spec. vm_compute. reflexivity.
  - vm_compute. reflexivity.
  - vm_compute. reflexivity.
Qed.
